(** * AdaLink: command scripting, output parsing and dispatch

    A shallow embedding of the Python sources of [adalink]
    ([programmers/jlink.py], [cores/samd21.py], [cores/atsamd21g18.py],
    [core.py], [main.py]) together with the properties of the command
    scripts they build and of the way they read the tools' output.

    Conventions.
    - A Python [str] is a [string]; every character stands for the code
      point of the same number, so the texts covered are those made of
      code points below U+0100.  Within that range the character classes
      below (white space, digits, letter case) are exactly Python's.
    - A Python [int] is a [Z].
    - A call that may raise is a [Result]: [Ok v] is a normal return and
      [Raise e] an exception leaving the function.
    - The external tools, the file system and the clock are not part of
      the program: what they answer is an argument of the model. *)

From Stdlib Require Import ZArith QArith List String Ascii Bool Lia Arith Sorted.
Import ListNotations.
Local Close Scope Q_scope.
Local Open Scope string_scope.
Local Open Scope list_scope.

Set Implicit Arguments.

(** ** Exceptions and results *)

(** The exception classes met in the sources.  [AdaLinkError] is the
    project's own class and carries its message; the others are built-in
    or come from [subprocess]. *)
Inductive Exc : Type :=
| AdaLinkError (msg : string)
| ValueError
| TypeError
| TimeoutError
| TimeoutExpired
| OSError.

Inductive Result (A : Type) : Type :=
| Ok (v : A)
| Raise (e : Exc).

Arguments Ok {A} v.
Arguments Raise {A} e.

Definition bind {A B : Type} (r : Result A) (k : A -> Result B) : Result B :=
  match r with
  | Ok v => k v
  | Raise e => Raise e
  end.

Notation "x <- c ;; k" := (bind c (fun x => k))
  (at level 61, c at next level, right associativity).

(** ** Text *)

Module Text.

Definition DQUOTE : string := String "034"%char EmptyString.
Definition LF : ascii := "010"%char.
Definition CR : ascii := "013"%char.

(** [s.startswith(p)] *)
Fixpoint startswith (p s : string) : bool :=
  match p, s with
  | EmptyString, _ => true
  | String a p', String b s' => Ascii.eqb a b && startswith p' s'
  | String _ _, EmptyString => false
  end.

(** [p in s], also [s.find(p) != -1] *)
Fixpoint contains (p s : string) : bool :=
  startswith p s ||
  match s with
  | EmptyString => false
  | String _ s' => contains p s'
  end.

(** The rest of [s] after the prefix [p], when [s] starts with [p]. *)
Fixpoint strip_prefix (p s : string) : option string :=
  match p, s with
  | EmptyString, _ => Some s
  | String a p', String b s' =>
      if Ascii.eqb a b then strip_prefix p' s' else None
  | String _ _, EmptyString => None
  end.

(** The longest prefix of [s] whose characters satisfy [f], and what
    follows it. *)
Fixpoint span (f : ascii -> bool) (s : string) : string * string :=
  match s with
  | EmptyString => (EmptyString, EmptyString)
  | String c s' =>
      if f c then let (a, b) := span f s' in (String c a, b)
      else (EmptyString, s)
  end.

Definition code (c : ascii) : nat := nat_of_ascii c.

(** [str.isspace] and the regular expression class [\s], on code points
    below U+0100: TAB, LF, VT, FF, CR, FS, GS, RS, US, SPACE, NEL, NBSP. *)
Definition isspace (c : ascii) : bool :=
  let n := code c in
  (((9 <=? n) && (n <=? 13)) || ((28 <=? n) && (n <=? 32))
   || (n =? 133) || (n =? 160))%nat.

(** The regular expression class [\S]. *)
Definition nonspace (c : ascii) : bool := negb (isspace c).

(** The characters at which [str.splitlines] breaks a line, other than
    the pair CR LF: LF, VT, FF, CR, FS, GS, RS, NEL. *)
Definition islinebreak (c : ascii) : bool :=
  let n := code c in
  (((10 <=? n) && (n <=? 13)) || ((28 <=? n) && (n <=? 30))
   || (n =? 133))%nat.

(** [s.splitlines()]: the lines without their terminators; a final
    terminator opens no empty last line.  [cur] is the line being read;
    [pending] tells that it has been opened. *)
Fixpoint splitlines_from (cur : string) (pending : bool) (s : string)
  : list string :=
  match s with
  | EmptyString => if pending then [cur] else []
  | String c s' =>
      if islinebreak c then
        match s' with
        | String d s'' =>
            if Ascii.eqb c CR && Ascii.eqb d LF
            then cur :: splitlines_from EmptyString false s''
            else cur :: splitlines_from EmptyString false s'
        | EmptyString => [cur]
        end
      else splitlines_from (cur ++ String c EmptyString) true s'
  end.

Definition splitlines (s : string) : list string :=
  splitlines_from EmptyString false s.

(** [s.endswith(p)] *)
Fixpoint endswith (p s : string) : bool :=
  String.eqb p s ||
  match s with
  | EmptyString => false
  | String _ s' => endswith p s'
  end.

(** ['\n'.join(l)] *)
Definition join_lines (l : list string) : string :=
  String.concat (String LF EmptyString) l.

End Text.

(** ** Number formatting *)

Module Fmt.

Definition hex_digit (d : Z) : ascii :=
  ascii_of_nat (Z.to_nat (if (d <? 10)%Z then 48 + d else 55 + d)%Z).

(** The [k] low hexadecimal digits of [n], most significant first, in
    upper case. *)
Fixpoint hex_digits (k : nat) (n : Z) : string :=
  match k with
  | O => EmptyString
  | S k' => hex_digits k' (n / 16) ++ String (hex_digit (n mod 16)) EmptyString
  end.

(** Number of hexadecimal digits of a natural number (one for zero). *)
Definition hex_len (n : Z) : nat := S (Z.to_nat (Z.log2 n / 4)).

(** ['{:0wX}'.format(n)]: upper-case hexadecimal, padded with zeros to
    [w] characters, the sign of a negative number counted in and put
    before the zeros. *)
Definition format_X (w : nat) (n : Z) : string :=
  if (n <? 0)%Z
  then "-" ++ hex_digits (Nat.max (w - 1) (hex_len (- n))) (- n)
  else hex_digits (Nat.max w (hex_len n)) n.

(** ['{0:08X}'.format(n)] *)
Definition format_08X (n : Z) : string := format_X 8 n.

End Fmt.

(** ** Command scripts *)

(** A command script is the list of command strings handed to
    [run_commands]. *)
Definition Script : Type := list string.

(** The loop [for x in xs: commands.append(cmd x)]. *)
Definition for_append {A : Type} (cmd : A -> string) (xs : list A)
  (commands : Script) : Script :=
  fold_left (fun cmds x => cmds ++ [cmd x]) xs commands.

(** Load commands are [load_image], [loadfile] and [loadbin]; verify
    commands are [verify_image] (and J-Link's [verifybin]). *)
Definition is_load_command (c : string) : bool := Text.startswith "load" c.
Definition is_verify_command (c : string) : bool := Text.startswith "verify" c.

Definition count_commands (p : string -> bool) (s : Script) : nat :=
  List.length (filter p s).

(** A request: the [.hex] paths and the [(path, address)] pairs of the
    [.bin] files, as [Core._callback] passes them to [program]. *)
Definition HexFiles : Type := list string.
Definition BinFiles : Type := list (string * Z).

(** *** The OpenOCD programmers

    [STLink_SAMD21], [RasPi2_SAMD21] (cores/samd21.py) and
    [STLink_ATSAMD21G18], [RasPi2_ATSAMD21G18] (cores/atsamd21g18.py)
    have the same [wipe] and [program] bodies, line for line.  Their base
    classes [STLink] and [RasPi2] are not among the sources: [escape_path]
    and [os.path.abspath] are taken as given functions, and what
    [run_commands] returns is an argument. *)
Module OpenOCD.

Section Builder.

Variable abspath : string -> string.
Variable escape_path : string -> string.

(** [f = self.escape_path(os.path.abspath(f))] *)
Definition embed (f : string) : string := escape_path (abspath f).

Definition load_hex (f : string) : string :=
  "load_image " ++ embed f ++ " 0 ihex".
Definition load_bin (fa : string * Z) : string :=
  "load_image " ++ embed (fst fa) ++ " 0x" ++ Fmt.format_08X (snd fa) ++ " bin".
Definition verify_hex (f : string) : string :=
  "verify_image " ++ embed f ++ " 0 ihex".
Definition verify_bin (fa : string * Z) : string :=
  "verify_image " ++ embed (fst fa) ++ " 0x" ++ Fmt.format_08X (snd fa) ++ " bin".

(** The list [commands] at the call of [run_commands] in [program]. *)
Definition program_commands (hex_files : HexFiles) (bin_files : BinFiles)
  : Script :=
  let commands := ["init"; "reset init"] in
  let commands := for_append load_hex hex_files commands in
  let commands := for_append load_bin bin_files commands in
  let commands := for_append verify_hex hex_files commands in
  let commands := for_append verify_bin bin_files commands in
  let commands := commands ++ ["reset run"] in
  let commands := commands ++ ["exit"] in
  commands.

Definition wipe_commands : Script :=
  ["init"; "reset init"; "at91samd chip-erase"; "exit"].

(** The load commands and the verify commands of a request, in the order
    of the request: those of the [.hex] files, then those of the [.bin]
    files. *)
Definition loads (hex_files : HexFiles) (bin_files : BinFiles) : Script :=
  map load_hex hex_files ++ map load_bin bin_files.
Definition verifies (hex_files : HexFiles) (bin_files : BinFiles) : Script :=
  map verify_hex hex_files ++ map verify_bin bin_files.

End Builder.

End OpenOCD.

(** *** The J-Link programmer (programmers/jlink.py) *)
Module JLink.

Section Builder.

Variable abspath : string -> string.

Definition loadfile (f : string) : string :=
  "loadfile " ++ Text.DQUOTE ++ abspath f ++ Text.DQUOTE.
Definition loadbin (fa : string * Z) : string :=
  "loadbin " ++ Text.DQUOTE ++ abspath (fst fa) ++ Text.DQUOTE
  ++ " 0x" ++ Fmt.format_08X (snd fa).

(** The list [commands] at the call of [run_commands] in [program]. *)
Definition program_commands (hex_files : HexFiles) (bin_files : BinFiles)
  : Script :=
  let commands := ["r"] in
  let commands := for_append loadfile hex_files commands in
  let commands := for_append loadbin bin_files commands in
  let commands := commands ++ ["r"; "g"; "q"] in
  commands.

Definition wipe_commands : Script := ["r"; "erase"; "r"; "q"].

End Builder.

(** The text between the first two quote characters of a command: the
    argument that a reader of the script takes for the quoted one. *)
Fixpoint until_quote (s : string) : option string :=
  match s with
  | EmptyString => None
  | String c r =>
      if Ascii.eqb c "034" then Some EmptyString
      else match until_quote r with
           | Some a => Some (String c a)
           | None => None
           end
  end.

Fixpoint quoted_argument (s : string) : option string :=
  match s with
  | EmptyString => None
  | String c r => if Ascii.eqb c "034" then until_quote r else quoted_argument r
  end.

(** [commands = '\n'.join(commands)], the text written to the script
    file by [run_commands]. *)
Definition script_text (commands : Script) : string :=
  Text.join_lines commands.

End JLink.

(** The programmer classes that define [program]. *)
Inductive Programmer : Type :=
| PJLink
| PSTLink_SAMD21
| PRasPi2_SAMD21
| PSTLink_ATSAMD21G18
| PRasPi2_ATSAMD21G18.

Definition uses_openocd (p : Programmer) : bool :=
  match p with PJLink => false | _ => true end.

Definition program_script (p : Programmer)
  (abspath escape_path : string -> string)
  (hex_files : HexFiles) (bin_files : BinFiles) : Script :=
  match p with
  | PJLink => JLink.program_commands abspath hex_files bin_files
  | _ => OpenOCD.program_commands abspath escape_path hex_files bin_files
  end.

(** ** Reading the tools' output *)

Module Parse.

Import Text.

(** *** [int(s, 16)]

    An optional sign, an optional [0x] or [0X] after which one
    underscore may stand, then hexadecimal digits with single
    underscores between them.  [None] is [ValueError].  The argument
    is a capture of [\S+], so there is no white space to strip. *)

Definition hex_val (c : ascii) : option Z :=
  let n := Z.of_nat (code c) in
  if ((48 <=? n) && (n <=? 57))%Z then Some (n - 48)%Z
  else if ((65 <=? n) && (n <=? 70))%Z then Some (n - 55)%Z
  else if ((97 <=? n) && (n <=? 102))%Z then Some (n - 87)%Z
  else None.

Definition is_hex (c : ascii) : bool :=
  match hex_val c with Some _ => true | None => false end.

Fixpoint digits_loop (prev_underscore : bool) (acc : Z) (s : string)
  : option Z :=
  match s with
  | EmptyString => if prev_underscore then None else Some acc
  | String c r =>
      if Ascii.eqb c "_" then
        if prev_underscore then None else digits_loop true acc r
      else
        match hex_val c with
        | Some d => digits_loop false (16 * acc + d) r
        | None => None
        end
  end.

Definition strip_sign (s : string) : bool * string :=
  match s with
  | String c r =>
      if Ascii.eqb c "-" then (true, r)
      else if Ascii.eqb c "+" then (false, r)
      else (false, s)
  | EmptyString => (false, s)
  end.

Definition strip_0x (s : string) : string :=
  match s with
  | String z (String x r) =>
      if Ascii.eqb z "0" && (Ascii.eqb x "x" || Ascii.eqb x "X") then
        match r with
        | String u r' => if Ascii.eqb u "_" then r' else r
        | EmptyString => r
        end
      else s
  | _ => s
  end.

Definition py_int16 (s : string) : option Z :=
  let (negative, s1) := strip_sign s in
  match strip_0x s1 with
  | EmptyString => None
  | String c r =>
      if Ascii.eqb c "_" then None
      else
        match digits_loop false 0 (String c r) with
        | Some v => Some (if negative then (- v)%Z else v)
        | None => None
        end
  end.

(** The number written by a run of hexadecimal digits. *)
Fixpoint hex_value_from (acc : Z) (s : string) : Z :=
  match s with
  | EmptyString => acc
  | String c r =>
      hex_value_from (16 * acc + match hex_val c with Some d => d | None => 0 end) r
  end.

Definition hex_value (s : string) : Z := hex_value_from 0 s.

Fixpoint all_hex (s : string) : bool :=
  match s with
  | EmptyString => true
  | String c r => is_hex c && all_hex r
  end.

(** No character of [s] is a line feed, even up to case. *)
Fixpoint no_lf (s : string) : bool :=
  match s with
  | EmptyString => true
  | String c r => negb (Ascii.eqb c Text.LF) && no_lf r
  end.

(** *** The register pattern

    [re.search('^{0} = (\S+)'.format(address), output,
               re.IGNORECASE | re.MULTILINE)]
    where [address] is ['{0:08X}'.format(address)]: digits, the letters
    [A] to [F] and possibly a sign, none of them special in a pattern. *)

(** Letters compared without case; only ASCII letters have another case
    among the characters of such a pattern. *)
Definition lower (c : ascii) : ascii :=
  let n := code c in
  if ((65 <=? n) && (n <=? 90))%nat then ascii_of_nat (n + 32) else c.

Definition eqb_nocase (a b : ascii) : bool := Ascii.eqb (lower a) (lower b).

(** The rest of [s] after a prefix equal to [p] up to case. *)
Fixpoint strip_prefix_nocase (p s : string) : option string :=
  match p, s with
  | EmptyString, _ => Some s
  | String a p', String b s' =>
      if eqb_nocase a b then strip_prefix_nocase p' s' else None
  | String _ _, EmptyString => None
  end.

(** [a] and [b] are the same text up to case. *)
Definition equal_nocase (a b : string) : bool :=
  match strip_prefix_nocase a b with
  | Some EmptyString => true
  | _ => false
  end.

(** The run of characters that are not white space after a prefix of
    [s] equal to [p] up to case. *)
Definition capture_after (p s : string) : option string :=
  match strip_prefix_nocase p s with
  | Some rest => Some (fst (span nonspace rest))
  | None => None
  end.

(** A match of [{address} = (\S+)] at the very start of [s]: the capture
    is the longest run of characters that are not white space. *)
Definition match_register_here (address s : string) : option string :=
  match strip_prefix_nocase (address ++ " = ") s with
  | Some rest =>
      match fst (span nonspace rest) with
      | EmptyString => None
      | tok => Some tok
      end
  | None => None
  end.

(** The leftmost match: [bol] tells that [s] starts a line, which with
    [re.MULTILINE] is the start of the text or the place after a LF. *)
Fixpoint search_register_from (address : string) (bol : bool) (s : string)
  : option string :=
  match (if bol then match_register_here address s else None) with
  | Some tok => Some tok
  | None =>
      match s with
      | EmptyString => None
      | String c s' => search_register_from address (Ascii.eqb c LF) s'
      end
  end.

Definition search_register (address output : string) : option string :=
  search_register_from address true output.

(** *** The voltage pattern  [re.search(r'VTref=([0-9.]+)V', output)] *)

Definition is_digit_or_dot (c : ascii) : bool :=
  let n := code c in
  (((48 <=? n) && (n <=? 57)) || (n =? 46))%nat.

(** The capture is the longest run of digits and dots: a shorter one is
    followed by a digit or a dot, never by [V]. *)
Definition match_voltage_here (s : string) : option string :=
  match strip_prefix "VTref=" s with
  | Some rest =>
      let (tok, after) := span is_digit_or_dot rest in
      match tok with
      | EmptyString => None
      | _ => if startswith "V" after then Some tok else None
      end
  | None => None
  end.

Fixpoint search_voltage (s : string) : option string :=
  match match_voltage_here s with
  | Some tok => Some tok
  | None =>
      match s with
      | EmptyString => None
      | String _ s' => search_voltage s'
      end
  end.

(** *** [float(ref_voltage) < 1]

    [ref_voltage] is a run of digits and dots.  [float] raises
    [ValueError] unless there is at most one dot and at least one digit;
    otherwise the text denotes [m / 10^k], [m] the number written by the
    digits and [k] the count of digits after the dot. *)
Fixpoint scan_decimal (seen_dot : bool) (m : Z) (k digits : nat) (s : string)
  : option (Z * nat) :=
  match s with
  | EmptyString => if (digits =? 0)%nat then None else Some (m, k)
  | String c r =>
      let n := Z.of_nat (code c) in
      if (n =? 46)%Z then
        if seen_dot then None else scan_decimal true m k digits r
      else if ((48 <=? n) && (n <=? 57))%Z then
        scan_decimal seen_dot (10 * m + (n - 48))%Z
          (if seen_dot then S k else k) (S digits) r
      else None
  end.

Definition decimal_of (s : string) : option (Z * nat) :=
  scan_decimal false 0%Z 0%nat 0%nat s.

(** [float] rounds to the nearest double, ties to even.  The doubles
    next to 1 from below are [1 - 2^-53] and [1] itself, so the text
    rounds below 1 exactly when its value is below their midpoint
    [1 - 2^-54] (the tie goes to 1, whose significand is even). *)
Definition rounds_below_one (m : Z) (k : nat) : bool :=
  (m * 2 ^ 54 <? (2 ^ 54 - 1) * 10 ^ Z.of_nat k)%Z.

(** [float(s) < 1], or [None] for [ValueError]. *)
Definition float_lt_1 (s : string) : option bool :=
  match decimal_of s with
  | Some (m, k) => Some (rounds_below_one m k)
  | None => None
  end.

(** The exact comparison of the decimal value with 1. *)
Definition decimal_lt_1 (m : Z) (k : nat) : bool :=
  (m <? 10 ^ Z.of_nat k)%Z.

End Parse.

(** ** Handling exceptions *)

(** [try: body  except C as e: handler e], where [catches] tells which
    exceptions are instances of [C]. *)
Definition try_except {A : Type} (body : Result A) (catches : Exc -> bool)
  (handler : Exc -> Result A) : Result A :=
  match body with
  | Ok v => Ok v
  | Raise e => if catches e then handler e else Raise e
  end.

(** [except TimeoutError]: the built-in class.  [subprocess.TimeoutExpired]
    derives from [subprocess.SubprocessError], not from it. *)
Definition isinstance_TimeoutError (e : Exc) : bool :=
  match e with TimeoutError => true | _ => false end.

(** [except AdaLinkError] *)
Definition isinstance_AdaLinkError (e : Exc) : bool :=
  match e with AdaLinkError _ => true | _ => false end.

(** ** The spawned process *)

(** What the program sees of a child process started with
    [subprocess.Popen]: the time it takes to exit by itself, in seconds,
    and what it writes meanwhile (standard output and error merged and
    decoded).  Processes that never exit are not modelled. *)
Module Proc.

Record Process : Type := { run_time : Q; stdout : string }.

Inductive ChildState : Type := Running | Finished | Killed.

(** A finite bound [t] expires when the child needs more than [t]
    seconds. *)
Definition expires (p : Process) (timeout : option Q) : bool :=
  match timeout with
  | None => false
  | Some t => negb (Qle_bool (run_time p) t)
  end.

(** [process.communicate(timeout=t)]: the output once the child has
    exited; when the bound expires first, [subprocess.TimeoutExpired]
    is raised and the child is left running.  With [t = None] the call
    waits for the exit. *)
Definition communicate (p : Process) (timeout : option Q)
  : Result string * ChildState :=
  if expires p timeout then (Raise TimeoutExpired, Running)
  else (Ok (stdout p), Finished).

End Proc.

Module JLinkRun.

Import Text Parse.

(** What JLinkExe does when started on a script file of the given
    content. *)
Definition Tool : Type := string -> Proc.Process.

(** [timeout_sec=60] *)
Definition default_timeout : option Q := Some (60 # 1)%Q.

Definition msg_timeout : string := "JLink process exceeded timeout!".
Definition msg_no_value : string :=
  "Could not find expected memory value, are the JLink and board connected?".
Definition msg_no_programmer : string :=
  "Could not find a JLink programmer, is it connected?".
Definition msg_no_voltage : string := "JLink output lacks voltage information".
Definition msg_low_voltage (ref_voltage : string) : string :=
  "JLink reference voltage is " ++ ref_voltage ++ "V, it the chip powered?".

(** [run_filename], from the [Popen] call on: the result of the call
    and the state in which it leaves the child.  The child is taken to
    have started and its output to be text, already decoded; what
    [run_filename] does when [Popen] raises or the output does not
    decode is in [JLinkHost.run_filename]. *)
Definition run_filename (process : Proc.Process) (timeout_sec : option Q)
  : Result string * Proc.ChildState :=
  let (communicated, child) := Proc.communicate process timeout_sec in
  (try_except communicated isinstance_TimeoutError
     (fun _ => Raise (AdaLinkError msg_timeout)),
   child).

Section Instance.

Variable tool : Tool.
(** [self._connected] *)
Variable connected : string.

Definition run_commands (commands : Script) (timeout_sec : option Q)
  : Result string :=
  fst (run_filename (tool (JLink.script_text commands)) timeout_sec).

(** The part of [_readmem] after [run_commands]: [address] is the
    formatted address. *)
Definition readmem_parse (address output : string) : Result Z :=
  match search_register address output with
  | Some group1 =>
      match py_int16 group1 with
      | Some v => Ok v
      | None => Raise ValueError
      end
  | None => Raise (AdaLinkError msg_no_value)
  end.

Definition _readmem (address : Z) (command : string) : Result Z :=
  let address := Fmt.format_08X address in
  let commands := [(command ++ " " ++ address ++ " 1")%string; "q"] in
  output <- run_commands commands default_timeout ;;
  readmem_parse address output.

Definition readmem32 (address : Z) : Result Z := _readmem address "mem32".
Definition readmem16 (address : Z) : Result Z := _readmem address "mem16".
Definition readmem8 (address : Z) : Result Z := _readmem address "mem8".

(** The part of [is_connected] after [run_commands]. *)
Definition is_connected_parse (output : string) : Result bool :=
  if contains "FAILED" output then Raise (AdaLinkError msg_no_programmer)
  else
    match search_voltage output with
    | None => Raise (AdaLinkError msg_no_voltage)
    | Some ref_voltage =>
        match float_lt_1 ref_voltage with
        | None => Raise ValueError
        | Some true => Raise (AdaLinkError (msg_low_voltage ref_voltage))
        | Some false => Ok (contains ("Found " ++ connected) output)
        end
    end.

Definition is_connected : Result bool :=
  output <- run_commands ["connect"; "q"] default_timeout ;;
  is_connected_parse output.

Definition wipe : Result unit :=
  _ <- run_commands (JLink.wipe_commands) default_timeout ;; Ok tt.

Definition program (abspath : string -> string)
  (hex_files : HexFiles) (bin_files : BinFiles) : Result unit :=
  _ <- run_commands (JLink.program_commands abspath hex_files bin_files)
         default_timeout ;;
  Ok tt.

End Instance.

(** [readmem8], [readmem16] and [readmem32] differ by the command they
    pass to [_readmem]; this is the three of them, by the width in bits. *)
Definition mem_command (width : nat) : string :=
  match width with
  | 8%nat => "mem8"
  | 16%nat => "mem16"
  | _ => "mem32"
  end.

Definition readmem (tool : Tool) (width : nat) (address : Z) : Result Z :=
  _readmem tool address (mem_command width).

(** A tool that, whatever the script, prints [text] and exits after one
    second. *)
Definition prints (text : string) : Tool :=
  fun _ => {| Proc.run_time := (1 # 1)%Q; Proc.stdout := text |}.

End JLinkRun.

(** ** Verification after programming (the OpenOCD programmers) *)

Module Verify.

Import Text.

(** [len(filter(f, l))].  The sources run on Python 3 only (they use
    zero-argument [super()], [communicate(timeout=...)] and
    [allow_abbrev]), where [filter] returns an iterator, and [len] of an
    iterator raises [TypeError], whatever [f] and [l] are. *)
Definition len_filter {A : Type} (f : A -> bool) (l : list A) : Result nat :=
  Raise TypeError.

Definition msg_not_verified : string :=
  "Failed to verify all files were programmed!".

(** The lines of the output that start with ['verified '], which the
    comment above the count says are counted. *)
Definition verified_lines (output : string) : list string :=
  filter (startswith "verified ") (splitlines output).

(** [if verified != (len(hex_files) + len(bin_files)): raise ...] *)
Definition check_verified (verified : nat)
  (hex_files : HexFiles) (bin_files : BinFiles) : Result unit :=
  if negb (verified =? List.length hex_files + List.length bin_files)%nat
  then Raise (AdaLinkError msg_not_verified)
  else Ok tt.

Section Program.

Variable abspath escape_path : string -> string.
(** [self.run_commands], of the base class. *)
Variable run_commands : Script -> Result string.

Definition program (hex_files : HexFiles) (bin_files : BinFiles)
  : Result unit :=
  output <- run_commands
              (OpenOCD.program_commands abspath escape_path
                 hex_files bin_files) ;;
  verified <- len_filter (startswith "verified ") (splitlines output) ;;
  check_verified verified hex_files bin_files.

End Program.

End Verify.

(** ** The core callback (core.py) *)

Module Core.

(** The calls [_callback] makes, in the order it makes them, and the
    lines it prints. *)
Inductive Event : Type :=
| EvConnect
| EvWipe
| EvProgram (hex_files : HexFiles) (bin_files : BinFiles)
| EvInfo
| EvRead (width : nat) (address : Z)
| EvPrint (line : string).


Section Callback.

(** The state of everything outside the program: probe, board and
    tools. *)
Variable World : Type.

Record State : Type := { trace : list Event; world : World }.

(** A computation that may raise and that changes the state, also
    when it raises. *)
Definition M (A : Type) : Type := State -> Result A * State.

Definition ret {A : Type} (v : A) : M A := fun s => (Ok v, s).

Definition raise {A : Type} (e : Exc) : M A := fun s => (Raise e, s).

Definition mbind {A B : Type} (m : M A) (k : A -> M B) : M B :=
  fun s =>
    match m s with
    | (Ok v, s') => k v s'
    | (Raise e, s') => (Raise e, s')
    end.

(** A method of the programmer or of the core acts on the world. *)
Definition Op (A : Type) : Type := World -> Result A * World.

(** Calling [op], with the call recorded first. *)
Definition call {A : Type} (ev : Event) (op : Op A) : M A :=
  fun s =>
    let (r, w) := op (world s) in
    (r, {| trace := trace s ++ [ev]; world := w |}).

(** A call that is not recorded. *)
Definition lift {A : Type} (op : Op A) : M A :=
  fun s =>
    let (r, w) := op (world s) in
    (r, {| trace := trace s; world := w |}).

Definition print (line : string) : M unit :=
  fun s => (Ok tt, {| trace := trace s ++ [EvPrint line]; world := world s |}).

(** The methods of a programmer object that [_callback] calls. *)
Record ProgrammerOps : Type := {
  is_connected : Op bool;
  wipe : Op unit;
  program : HexFiles -> BinFiles -> Op unit;
  readmem8 : Z -> Op Z;
  readmem16 : Z -> Op Z;
  readmem32 : Z -> Op Z
}.

(** The attributes of [args] that [_callback] reads. *)
Record Args : Type := {
  arg_programmer : string;
  arg_wipe : bool;
  arg_info : bool;
  arg_program_hex : option HexFiles;
  arg_program_bin : option BinFiles;
  arg_read_mem_8 : option Z;
  arg_read_mem_16 : option Z;
  arg_read_mem_32 : option Z
}.

Definition msg_not_found (name : string) : string :=
  "Could not find " ++ name ++ ", is it connected?".
Definition msg_ambiguous : string :=
  "Only one read memory command can be specified at a time.".

Definition is_not_None {A : Type} (x : option A) : bool :=
  match x with Some _ => true | None => false end.

(** [[x for x in [args.read_mem_8, args.read_mem_16, args.read_mem_32]
     if x != None]] *)
Definition requested_reads (args : Args) : list (option Z) :=
  filter is_not_None
    [arg_read_mem_8 args; arg_read_mem_16 args; arg_read_mem_32 args].

(** [value = programmer.readmemN(address); print('0x{0:0X}'.format(value))] *)
Definition read_and_print (width : nat) (read : Z -> Op Z) (address : option Z)
  : M unit :=
  match address with
  | Some a =>
      mbind (call (EvRead width a) (read a))
        (fun value => print ("0x" ++ Fmt.format_X 0 value))
  | None => ret tt
  end.

Section Subclass.

(** [self.name], and the methods the subclasses define:
    [create_programmer] and [info]. *)
Variable name : string.
Variable create_programmer : string -> Op ProgrammerOps.
Variable info : ProgrammerOps -> Op unit.

Definition _callback (args : Args) : M unit :=
  mbind (lift (create_programmer (arg_programmer args))) (fun programmer =>
  mbind (call EvConnect (is_connected programmer)) (fun is_conn =>
  if negb is_conn then raise (AdaLinkError (msg_not_found name))
  else
  mbind (if arg_wipe args then call EvWipe (wipe programmer) else ret tt)
  (fun _ =>
  let program_hex :=
    match arg_program_hex args with None => [] | Some l => l end in
  let program_bin :=
    match arg_program_bin args with None => [] | Some l => l end in
  mbind (if (0 <? List.length program_hex)%nat
            || (0 <? List.length program_bin)%nat
         then call (EvProgram program_hex program_bin)
                (program programmer program_hex program_bin)
         else ret tt)
  (fun _ =>
  mbind (if arg_info args then call EvInfo (info programmer) else ret tt)
  (fun _ =>
  let f := requested_reads args in
  if (1 <? List.length f)%nat then raise (AdaLinkError msg_ambiguous)
  else
  mbind (read_and_print 8 (readmem8 programmer) (arg_read_mem_8 args))
  (fun _ =>
  mbind (read_and_print 16 (readmem16 programmer) (arg_read_mem_16 args))
  (fun _ =>
  read_and_print 32 (readmem32 programmer) (arg_read_mem_32 args)))))))).

End Subclass.




End Callback.

(** A programmer object whose methods all succeed and leave the world as
    it is; its reads return 0. *)
Definition steady (World : Type) : ProgrammerOps World :=
  {| is_connected := fun w => (Ok true, w);
     wipe := fun w => (Ok tt, w);
     program := fun _ _ w => (Ok tt, w);
     readmem8 := fun _ w => (Ok 0%Z, w);
     readmem16 := fun _ w => (Ok 0%Z, w);
     readmem32 := fun _ w => (Ok 0%Z, w) |}.

(** The connection step of [_callback] on a J-Link programmer:
    [if not programmer.is_connected(): raise AdaLinkError(...)]. *)
Definition connect_check (name connected output : string) : Result unit :=
  is_conn <- JLinkRun.is_connected_parse connected output ;;
  if negb is_conn then Raise (AdaLinkError (msg_not_found name)) else Ok tt.

End Core.

(** ** The entry point (main.py) *)

Module Main.

(** How [main] ends: it returns, or an exception leaves it. *)
Inductive Ending : Type :=
| Returns
| Propagates (e : Exc).

Record Run : Type := { printed : list string; ending : Ending }.

(** [main] after [parser.parse_args()].  [func] is [None] when no core
    was named; otherwise it gives what [args.func(args)] prints and how
    it ends.

    [if 'func' in args:
         try: args.func(args)
         except AdaLinkError as e: print(e)
     else: parser.print_help()] *)
Definition main (help : string) (func : option (list string * Result unit))
  : Run :=
  match func with
  | Some (out, r) =>
      match try_except (A := list string)
              (_ <- r ;; Ok []) isinstance_AdaLinkError
              (fun e => match e with
                        | AdaLinkError msg => Ok [msg]
                        | _ => Ok []
                        end) with
      | Ok more => {| printed := out ++ more; ending := Returns |}
      | Raise e => {| printed := out; ending := Propagates e |}
      end
  | None => {| printed := [help]; ending := Returns |}
  end.

(** The status with which the interpreter exits: [main()] at the end of
    the module, and [sys.exit(main())] in the console script, both exit
    with 0 when [main] returns ([None]) and with 1 when an exception
    leaves it. *)
Definition exit_status (r : Run) : Z :=
  match ending r with
  | Returns => 0
  | Propagates _ => 1
  end.

End Main.

(** ** The specification's failure kinds

    The code has one error class, [AdaLinkError], told apart by its
    message.  The specification names the failures of the connection
    check and of a register read; this is which message stands for which
    name. *)

Module Kinds.

Inductive Failure : Type :=
| NotConnected
| LowVoltage
| ProtocolError
| ParseError.

Definition failure_of_message (msg : string) : option Failure :=
  if String.eqb msg JLinkRun.msg_no_value then Some ParseError
  else if Text.startswith "Could not find " msg then Some NotConnected
  else if Text.startswith "JLink reference voltage is " msg then Some LowVoltage
  else if String.eqb msg JLinkRun.msg_no_voltage then Some ProtocolError
  else None.

(** The exceptions that report an expired time bound. *)
Definition is_timeout (e : Exc) : bool :=
  match e with
  | TimeoutExpired | TimeoutError => true
  | AdaLinkError msg => String.eqb msg JLinkRun.msg_timeout
  | _ => false
  end.

(** The kind of failure a result stands for; [None] for a normal return
    and for the exceptions that are no [AdaLinkError]. *)
Definition failure_of {A : Type} (r : Result A) : option Failure :=
  match r with
  | Raise (AdaLinkError msg) => failure_of_message msg
  | _ => None
  end.

End Kinds.

(** ** The text of a voltage reading *)

Module Reading.

Definition is_dot (c : ascii) : bool := (Text.code c =? 46)%nat.

Definition is_digit (c : ascii) : bool :=
  ((48 <=? Text.code c) && (Text.code c <=? 57))%nat.

(** The number of characters of [s] in the class [f]. *)
Fixpoint count (f : ascii -> bool) (s : string) : nat :=
  match s with
  | EmptyString => 0
  | String c r => (if f c then 1 else 0) + count f r
  end.

Definition dots (s : string) : nat := count is_dot s.
Definition digits (s : string) : nat := count is_digit s.

(** Every character of [s] is in the class [f]. *)
Fixpoint only (f : ascii -> bool) (s : string) : bool :=
  match s with
  | EmptyString => true
  | String c r => f c && only f r
  end.

End Reading.

(** ** More of the callback *)

Module Calls.

(** The place of a call in the sequence of [_callback]: connection
    check, wipe, programming, info report, read, printing of the value
    read. *)
Definition phase (e : Core.Event) : nat :=
  match e with
  | Core.EvConnect => 0
  | Core.EvWipe => 1
  | Core.EvProgram _ _ => 2
  | Core.EvInfo => 3
  | Core.EvRead _ _ => 4
  | Core.EvPrint _ => 5
  end.

(** The events are in the order of their phases, none of them twice,
    and all in phases from [lo] up to [hi], [hi] left out. *)
Definition in_order (lo hi : nat) (events : list Core.Event) : Prop :=
  Sorted.StronglySorted lt (map phase events)
  /\ Forall (fun e => lo <= phase e < hi) events.

Section World.

Variable World : Type.

(** The state in which [_callback] starts: nothing recorded yet. *)
Definition start (w : World) : Core.State World :=
  {| Core.trace := []; Core.world := w |}.

(** Whatever it returns, [m] adds to the trace events in order and
    within the phases [lo] to [hi]. *)
Definition within {A : Type} (lo hi : nat) (m : Core.M World A) : Prop :=
  forall s, exists events,
    Core.trace (snd (m s)) = Core.trace s ++ events
    /\ in_order lo hi events.

(** [[] if args.program_hex is None else args.program_hex], and the
    same for the bin files. *)
Definition program_hex (args : Core.Args) : HexFiles :=
  match Core.arg_program_hex args with None => [] | Some l => l end.
Definition program_bin (args : Core.Args) : BinFiles :=
  match Core.arg_program_bin args with None => [] | Some l => l end.

(** [len(program_hex) > 0 or len(program_bin) > 0] *)
Definition has_files (args : Core.Args) : bool :=
  ((0 <? List.length (program_hex args))
   || (0 <? List.length (program_bin args)))%nat.

(** Whatever it returns, [m] adds to the trace only events that
    satisfy [P]. *)
Definition only {A : Type} (P : Core.Event -> Prop) (m : Core.M World A)
  : Prop :=
  forall s, exists events,
    Core.trace (snd (m s)) = Core.trace s ++ events /\ Forall P events.

(** A call of [program] is the call for the files of the request, of
    which there is at least one. *)
Definition programs_request (args : Core.Args) (e : Core.Event) : Prop :=
  match e with
  | Core.EvProgram h b =>
      h = program_hex args /\ b = program_bin args /\ has_files args = true
  | _ => True
  end.





End World.

(** A programmer object that is not connected: the connection check
    answers [False]; the other methods are those of [Core.steady]. *)
Definition unplugged (World : Type) : Core.ProgrammerOps World :=
  {| Core.is_connected := fun w => (Ok false, w);
     Core.wipe := Core.wipe (Core.steady World);
     Core.program := Core.program (Core.steady World);
     Core.readmem8 := Core.readmem8 (Core.steady World);
     Core.readmem16 := Core.readmem16 (Core.steady World);
     Core.readmem32 := Core.readmem32 (Core.steady World) |}.

(** A programmer object that keeps the record of the methods called on
    it: the world is the list of their names, in the order of the calls.
    None of its methods fails; its reads return 0. *)
Definition recording : Core.ProgrammerOps (list string) :=
  {| Core.is_connected := fun w => (Ok true, w ++ ["is_connected"]);
     Core.wipe := fun w => (Ok tt, w ++ ["wipe"]);
     Core.program := fun _ _ w => (Ok tt, w ++ ["program"]);
     Core.readmem8 := fun _ w => (Ok 0%Z, w ++ ["readmem8"]);
     Core.readmem16 := fun _ w => (Ok 0%Z, w ++ ["readmem16"]);
     Core.readmem32 := fun _ w => (Ok 0%Z, w ++ ["readmem32"]) |}.

(** The same, but the read method [method] fails at the addresses
    that [bad] holds of. *)
Definition failing_on (method : string) (bad : Z -> bool)
  : Core.ProgrammerOps (list string) :=
  let read (m : string) (address : Z) (w : list string) :=
    (if String.eqb m method && bad address
     then Raise (AdaLinkError JLinkRun.msg_no_value)
     else Ok 0%Z,
     w ++ [m]) in
  {| Core.is_connected := Core.is_connected recording;
     Core.wipe := Core.wipe recording;
     Core.program := Core.program recording;
     Core.readmem8 := read "readmem8";
     Core.readmem16 := read "readmem16";
     Core.readmem32 := read "readmem32" |}.

End Calls.

(** ** The cores (cores/samd21.py, cores/atsamd21g18.py) *)

Module Cores.

(** [DEVSEL_CHIPNAME_LOOKUP.get(code, 'Reserved')]; the table is the
    same in both files. *)
Definition DEVSEL_CHIPNAME_LOOKUP : list (Z * string) :=
  [(0, "SAMD21J18A"); (1, "SAMD21J17A"); (2, "SAMD21J16A"); (3, "SAMD21J15A");
   (5, "SAMD21G18A"); (6, "SAMD21G17A"); (7, "SAMD21G16A"); (8, "SAMD21G15A");
   (10, "SAMD21E18A"); (11, "SAMD21E17A"); (12, "SAMD21E16A");
   (13, "SAMD21E15A")]%Z.

(** [d.get(key)] on a dict written as the list of its items. *)
Fixpoint dict_get {V : Type} (eqb : Z -> Z -> bool) (d : list (Z * V)) (key : Z)
  : option V :=
  match d with
  | [] => None
  | (k, v) :: rest => if eqb k key then Some v else dict_get eqb rest key
  end.

Definition chip_name (code : Z) : string :=
  match dict_get Z.eqb DEVSEL_CHIPNAME_LOOKUP code with
  | Some name => name
  | None => "Reserved"
  end.

(** The registers of the serial number, in the order [info] reads
    them. *)
Definition serial_registers : list Z :=
  [8429582; 8429580; 8429634; 8429632; 8429638; 8429636; 8429642; 8429640]%Z.

(** The address of the device selection register. *)
Definition DEVSEL_ADDRESS : Z := 1090527256.

(** ['Serial No.: {0:04X}:{1:04X}:...:{7:04X}'.format(...)] *)
Definition serial_line (values : list Z) : string :=
  "Serial No.: " ++ String.concat ":" (map (Fmt.format_X 4) values).

(** ['Device ID : {0}'.format(DEVSEL_CHIPNAME_LOOKUP.get(code, 'Reserved'))] *)
Definition device_line (code : Z) : string := "Device ID : " ++ chip_name code.

Section Info.

Variable World : Type.

(** The arguments of [format] are evaluated from left to right: one
    [readmem16] for each register, the values kept in order. *)
Fixpoint read_registers (p : Core.ProgrammerOps World) (addresses : list Z)
  : Core.M World (list Z) :=
  match addresses with
  | [] => Core.ret []
  | a :: rest =>
      Core.mbind (Core.call (Core.EvRead 16 a) (Core.readmem16 p a))
        (fun v =>
           Core.mbind (read_registers p rest)
             (fun vs => Core.ret (v :: vs)))
  end.

(** [info] of [SAMD21] and of [ATSAMD21G18], the same in both files. *)
Definition info (p : Core.ProgrammerOps World) : Core.M World unit :=
  Core.mbind (read_registers p serial_registers) (fun values =>
  Core.mbind (Core.print (serial_line values)) (fun _ =>
  Core.mbind (Core.call (Core.EvRead 8 DEVSEL_ADDRESS)
                (Core.readmem8 p DEVSEL_ADDRESS)) (fun code =>
  Core.print (device_line code)))).


End Info.

(** The lines printed, in order. *)
Definition printed_lines (events : list Core.Event) : list string :=
  flat_map (fun e => match e with Core.EvPrint l => [l] | _ => [] end) events.

End Cores.

(** ** Lines of a script file *)

Module Lines.

(** [text.split('\n')]: the pieces between line feeds; a text without
    one is a single piece. *)
Fixpoint split_lf_from (cur : string) (s : string) : list string :=
  match s with
  | EmptyString => [cur]
  | String c r =>
      if Ascii.eqb c Text.LF then cur :: split_lf_from EmptyString r
      else split_lf_from (cur ++ String c EmptyString) r
  end.

Definition split_lf (s : string) : list string :=
  split_lf_from EmptyString s.

(** The number of line feeds in a text. *)
Fixpoint count_lf (s : string) : nat :=
  match s with
  | EmptyString => 0
  | String c r => (if Ascii.eqb c Text.LF then 1 else 0) + count_lf r
  end.

(** [s.split()]: the runs of characters that are not white space.
    [cur] is the run being read, [pending] tells that it has been
    opened. *)
Fixpoint split_ws_from (cur : string) (pending : bool) (s : string)
  : list string :=
  match s with
  | EmptyString => if pending then [cur] else []
  | String c r =>
      if Text.isspace c then
        if pending then cur :: split_ws_from EmptyString false r
        else split_ws_from EmptyString false r
      else split_ws_from (cur ++ String c EmptyString) true r
  end.

Definition split_ws (s : string) : list string :=
  split_ws_from EmptyString false s.

(** The text in lower case, letter by letter. *)
Fixpoint lowercase (s : string) : string :=
  match s with
  | EmptyString => EmptyString
  | String c r => String (Parse.lower c) (lowercase r)
  end.

(** The line starts with the address, its letters in either case, then
    [ = ], then a character that is not white space. *)
Definition starts_reading (address line : string) : Prop :=
  exists line_address c rest,
    line = (line_address ++ " = " ++ String c rest)%string
    /\ lowercase line_address = lowercase address
    /\ Text.isspace c = false.

(** The first result that [f] gives on the lines, in their order. *)
Fixpoint first_match (f : string -> option string) (lines : list string)
  : option string :=
  match lines with
  | [] => None
  | l :: rest =>
      match f l with
      | Some t => Some t
      | None => first_match f rest
      end
  end.

(** A text without white space, and a word: such a text that is not
    empty. *)
Fixpoint no_space (s : string) : bool :=
  match s with
  | EmptyString => true
  | String c r => Text.nonspace c && no_space r
  end.

Definition is_word (s : string) : bool :=
  match s with
  | EmptyString => false
  | String _ _ => no_space s
  end.

End Lines.

(** ** Creating the programmers (cores/samd21.py, cores/atsamd21g18.py,
    programmers/jlink.py) *)

Module Create.

(** [VARIANT_LOOKUP], as the list of its items. *)
Definition VARIANT_LOOKUP : list (string * (string * string)) :=
  [("samd21e15", ("atsamd21e15", "at91samd21e15"));
   ("samd21e16", ("atsamd21e16", "at91samd21e16"));
   ("samd21e17", ("atsamd21e17", "at91samd21e17"));
   ("samd21e18", ("atsamd21e18", "at91samd21e18"));
   ("samd21g15", ("atsamd21g15", "at91samd21g15"));
   ("samd21g16", ("atsamd21g16", "at91samd21g16"));
   ("samd21g17", ("atsamd21g17", "at91samd21g17"));
   ("samd21g18", ("atsamd21g18", "at91samd21g18"));
   ("samd21j15", ("atsamd21j15", "at91samd21j15"));
   ("samd21j16", ("atsamd21j16", "at91samd21j16"));
   ("samd21j17", ("atsamd21j17", "at91samd21j17"));
   ("samd21j18", ("atsamd21j18", "at91samd21j18"))].

(** [d.get(key)] for string keys. *)
Fixpoint get {V : Type} (d : list (string * V)) (key : string) : option V :=
  match d with
  | [] => None
  | (k, v) :: rest => if String.eqb k key then Some v else get rest key
  end.

(** [VARIANT_LOOKUP.get(self.variant, ('ATSAMD21G18',))[0]] *)
Definition jlink_device (variant : string) : string :=
  match get VARIANT_LOOKUP variant with
  | Some (device, _) => device
  | None => "ATSAMD21G18"
  end.

(** [VARIANT_LOOKUP.get(self.variant, ('', 'at91samd21g18'))[1]] *)
Definition openocd_chipname (variant : string) : string :=
  match get VARIANT_LOOKUP variant with
  | Some (_, chipname) => chipname
  | None => "at91samd21g18"
  end.

(** ['-device {} -if swd -speed 1000'.format(device)] *)
Definition jlink_params (device : string) : string :=
  "-device " ++ device ++ " -if swd -speed 1000".

(** The [params] that [STLink_SAMD21.__init__] and
    [RasPi2_SAMD21.__init__] pass to their base class. *)
Definition stlink_params (chipname : string) : string :=
  "-f interface/stlink-v2.cfg -c " ++ Text.DQUOTE ++ "set CHIPNAME "
  ++ chipname
  ++ "; set ENDIAN little; set CPUTAPID 0x0bc11477; source [find target/at91samdXX.cfg]"
  ++ Text.DQUOTE.

Definition raspi2_params (chipname : string) : string :=
  "-f interface/raspberrypi2-native.cfg -c " ++ Text.DQUOTE
  ++ "transport select swd; set CHIPNAME " ++ chipname
  ++ "; adapter_nsrst_delay 100; adapter_nsrst_assert_width 100; source [find target/at91samdXX.cfg]"
  ++ Text.DQUOTE.

(** The [params] of [STLink_ATSAMD21G18] and [RasPi2_ATSAMD21G18], which
    are written out in full in cores/atsamd21g18.py. *)
Definition stlink_params_atsamd21g18 : string :=
  "-f interface/stlink-v2.cfg -c " ++ Text.DQUOTE
  ++ "set CHIPNAME at91samd21g18; set ENDIAN little; set CPUTAPID 0x0bc11477; source [find target/at91samdXX.cfg]"
  ++ Text.DQUOTE.

Definition raspi2_params_atsamd21g18 : string :=
  "-f interface/raspberrypi2-native.cfg -c " ++ Text.DQUOTE
  ++ "transport select swd; set CHIPNAME at91samd21g18; adapter_nsrst_delay 100; adapter_nsrst_assert_width 100; source [find target/at91samdXX.cfg]"
  ++ Text.DQUOTE.

(** The constructor call that [create_programmer] makes: the class and
    its arguments. *)
Inductive Object : Type :=
| NewJLink (connected params : string)
| NewOpenOCD (class : Programmer) (params : string).

(** The keys of [VARIANT_LOOKUP]. *)
Definition variants : list string := map fst VARIANT_LOOKUP.


(** The branch that [SAMD21.create_programmer] takes for a name: the
    constructor it calls, with the arguments; [None] when no branch is
    taken.  What the call does is [JLinkHost.construct]. *)
Definition samd21_constructor_call (variant programmer : string)
  : option Object :=
  if String.eqb programmer "jlink" then
    Some (NewJLink "Cortex-M0 r0p1, Little endian"
            (jlink_params (jlink_device variant)))
  else if String.eqb programmer "stlink" then
    Some (NewOpenOCD PSTLink_SAMD21 (stlink_params (openocd_chipname variant)))
  else if String.eqb programmer "raspi2" then
    Some (NewOpenOCD PRasPi2_SAMD21 (raspi2_params (openocd_chipname variant)))
  else None.


(** [self._jlink_params] after [JLink.__init__]:
    [['-NoGui', '1']] extended with [params.split()] when [params] is
    not [None]. *)
Definition jlink_args (params : option string) : list string :=
  ["-NoGui"; "1"]
  ++ match params with
     | Some text => Lines.split_ws text
     | None => []
     end.

End Create.

(** ** The J-Link programmer under [_callback] *)

Module JLinkObject.

(** The methods of a [JLink] object as [_callback] calls them.  JLinkExe
    is taken to answer a script the same way each time it is run, so
    the world has no state of its own. *)
Definition ops (tool : JLinkRun.Tool) (connected : string)
  (abspath : string -> string) : Core.ProgrammerOps unit :=
  {| Core.is_connected := fun w => (JLinkRun.is_connected tool connected, w);
     Core.wipe := fun w => (JLinkRun.wipe tool, w);
     Core.program :=
       fun hex_files bin_files w =>
         (JLinkRun.program tool abspath hex_files bin_files, w);
     Core.readmem8 := fun address w => (JLinkRun.readmem8 tool address, w);
     Core.readmem16 := fun address w => (JLinkRun.readmem16 tool address, w);
     Core.readmem32 := fun address w => (JLinkRun.readmem32 tool address, w) |}.

(** A tool that needs [seconds] seconds for any script and writes
    nothing. *)
Definition slow (seconds : Q) : JLinkRun.Tool :=
  fun _ => {| Proc.run_time := seconds; Proc.stdout := EmptyString |}.

End JLinkObject.

(** ** The J-Link programmer on its host *)

Module JLinkHost.

(** The bytes a child process has written, by what
    [output.decode('utf-8')] makes of them: a text, or
    [UnicodeDecodeError]. *)
Inductive Output : Type :=
| Utf8 (text : string)
| NotUtf8.

(** A child process started with [subprocess.Popen]: the time it takes
    to exit by itself, in seconds, and what it writes meanwhile. *)
Record Child : Type := { run_time : Q; output : Output }.

(** What the program uses of its host.  The host answers the same way
    each time it is asked. *)
Record Host : Type := {
  (** [platform.system()] *)
  system : string;
  (** [tempfile.NamedTemporaryFile(mode='w', delete=False)], [write] of
      the text and [close]: the name of the file, or the exception
      raised. *)
  write_script : string -> Result string;
  (** [subprocess.Popen(args, ...)]: the child, or the exception
      raised, [OSError] when the program cannot be started. *)
  popen : list string -> Result Child
}.




(** The attributes of a [JLink] object. *)
Record JLink : Type := {
  _connected : string;
  _jlink_path : string;
  _jlink_params : list string
}.

Section OnHost.

Variable host : Host.



Definition expires (process : Child) (timeout : option Q) : bool :=
  match timeout with
  | None => false
  | Some t => negb (Qle_bool (run_time process) t)
  end.

(** [process.communicate(timeout=timeout_sec)] *)
Definition communicate (process : Child) (timeout : option Q)
  : Result Output :=
  if expires process timeout then Raise TimeoutExpired
  else Ok (output process).

(** [output.decode('utf-8')]; [UnicodeDecodeError] is a [ValueError]. *)
Definition decode (o : Output) : Result string :=
  match o with
  | Utf8 text => Ok text
  | NotUtf8 => Raise ValueError
  end.

Variable self : JLink.

Definition run_filename (filename : string) (timeout_sec : option Q)
  : Result string :=
  let args := [_jlink_path self] in
  let args := args ++ _jlink_params self in
  let args := args ++ [filename] in
  process <- popen host args ;;
  output <- try_except (communicate process timeout_sec)
              isinstance_TimeoutError
              (fun _ => Raise (AdaLinkError JLinkRun.msg_timeout)) ;;
  decode output.

Definition run_commands (commands : Script) (timeout_sec : option Q)
  : Result string :=
  name <- write_script host (JLink.script_text commands) ;;
  run_filename name timeout_sec.

Definition wipe : Result unit :=
  _ <- run_commands JLink.wipe_commands JLinkRun.default_timeout ;; Ok tt.

Definition program (abspath : string -> string)
  (hex_files : HexFiles) (bin_files : BinFiles) : Result unit :=
  _ <- run_commands (JLink.program_commands abspath hex_files bin_files)
         JLinkRun.default_timeout ;;
  Ok tt.

End OnHost.


Section Construct.

Variable host : Host.
(** [STLink.__init__(params=...)] and [RasPi2.__init__(params=...)]:
    the classes are not among the sources, so what their constructors
    do with the parameters is left open. *)
Variable openocd_init : Programmer -> string -> Result unit.




End Construct.

(** The tool of [JLinkRun] that a [JLink] object runs on a host where
    the script with the text [t] gets the file name [name_of t] and the
    child started with the arguments [args] takes the time and writes
    the text that [child_of args] gives. *)
Definition tool_of (self : JLink)
  (name_of : string -> string) (child_of : list string -> Q * string)
  : JLinkRun.Tool :=
  fun script =>
    let c :=
      child_of ([_jlink_path self] ++ _jlink_params self ++ [name_of script]) in
    {| Proc.run_time := fst c; Proc.stdout := snd c |}.

(** A host on which script files can be written, every program starts
    and the children write text. *)
Definition text_host (system : string) (name_of : string -> string)
  (child_of : list string -> Q * string) : Host :=
  {| system := system;
     write_script := fun text => Ok (name_of text);
     popen :=
       fun args =>
         Ok {| run_time := fst (child_of args);
               output := Utf8 (snd (child_of args)) |} |}.

End JLinkHost.

(** * Properties *)

(** ** Strings *)

Lemma string_app_assoc (a b c : string) :
  ((a ++ b) ++ c = a ++ (b ++ c))%string.
Proof. induction a as [|x a IH]; simpl; [reflexivity | now rewrite IH]. Qed.

Lemma string_app_nil_r (a : string) : (a ++ "" = a)%string.
Proof. induction a as [|x a IH]; simpl; [reflexivity | now rewrite IH]. Qed.

Lemma string_app_length (a b : string) :
  String.length (a ++ b) = String.length a + String.length b.
Proof. induction a as [|x a IH]; simpl; [reflexivity | now rewrite IH]. Qed.

(** ** Scripts *)

Section ScriptFacts.

Lemma for_append_map (A : Type) (cmd : A -> string) (xs : list A)
  (commands : Script) :
  for_append cmd xs commands = commands ++ map cmd xs.
Proof.
  unfold for_append. revert commands.
  induction xs as [|x xs IH]; intros commands; simpl.
  - now rewrite app_nil_r.
  - rewrite IH, <- app_assoc. reflexivity.
Qed.

Lemma count_commands_app (p : string -> bool) (s t : Script) :
  count_commands p (s ++ t) = count_commands p s + count_commands p t.
Proof.
  unfold count_commands. now rewrite filter_app, length_app.
Qed.

Lemma count_commands_map_all (A : Type) (p : string -> bool)
  (cmd : A -> string) (xs : list A) :
  (forall x, p (cmd x) = true) ->
  count_commands p (map cmd xs) = List.length xs.
Proof.
  intros H. unfold count_commands.
  induction xs as [|x xs IH]; simpl; [reflexivity|].
  rewrite H. simpl. now rewrite IH.
Qed.

Lemma count_commands_map_none (A : Type) (p : string -> bool)
  (cmd : A -> string) (xs : list A) :
  (forall x, p (cmd x) = false) ->
  count_commands p (map cmd xs) = 0.
Proof.
  intros H. unfold count_commands.
  induction xs as [|x xs IH]; simpl; [reflexivity|].
  now rewrite H.
Qed.

End ScriptFacts.

Section OpenOCDFacts.

Variable abspath escape_path : string -> string.

Lemma openocd_program_commands_eq hex_files bin_files :
  OpenOCD.program_commands abspath escape_path hex_files bin_files
  = ["init"; "reset init"] ++ OpenOCD.loads abspath escape_path hex_files bin_files
    ++ OpenOCD.verifies abspath escape_path hex_files bin_files ++ ["reset run"; "exit"].
Proof.
  unfold OpenOCD.program_commands, OpenOCD.loads, OpenOCD.verifies.
  rewrite !for_append_map. simpl.
  repeat rewrite <- app_assoc. reflexivity.
Qed.

Lemma loads_length hex_files bin_files :
  List.length (OpenOCD.loads abspath escape_path hex_files bin_files)
  = List.length hex_files + List.length bin_files.
Proof. unfold OpenOCD.loads. now rewrite length_app, !length_map. Qed.

Lemma verifies_length hex_files bin_files :
  List.length (OpenOCD.verifies abspath escape_path hex_files bin_files)
  = List.length hex_files + List.length bin_files.
Proof. unfold OpenOCD.verifies. now rewrite length_app, !length_map. Qed.

End OpenOCDFacts.

Section JLinkFacts.

Variable abspath : string -> string.

Lemma jlink_program_commands_eq hex_files bin_files :
  JLink.program_commands abspath hex_files bin_files
  = ["r"] ++ map (JLink.loadfile abspath) hex_files
    ++ map (JLink.loadbin abspath) bin_files ++ ["r"; "g"; "q"].
Proof.
  unfold JLink.program_commands. rewrite !for_append_map.
  now rewrite <- !app_assoc.
Qed.

End JLinkFacts.

(** C2, as the code has it.  Every programmer's script holds exactly N+M
    load commands.  The scripts of the four OpenOCD programmers hold
    exactly N+M verify commands; the J-Link script holds none. *)
Theorem program_script_counts (p : Programmer)
  (abspath escape_path : string -> string)
  (hex_files : HexFiles) (bin_files : BinFiles) :
  count_commands is_load_command
    (program_script p abspath escape_path hex_files bin_files)
  = List.length hex_files + List.length bin_files
  /\ count_commands is_verify_command
       (program_script p abspath escape_path hex_files bin_files)
     = if uses_openocd p
       then List.length hex_files + List.length bin_files
       else 0.
Proof.
  assert (J : p = PJLink \/ uses_openocd p = true)
    by (destruct p; auto).
  destruct J as [-> | Ho].
  - simpl. rewrite jlink_program_commands_eq.
    rewrite !count_commands_app.
    rewrite !(count_commands_map_all is_load_command) by reflexivity.
    rewrite !(count_commands_map_none is_verify_command) by reflexivity.
    split; reflexivity || (cbn; lia).
  - assert (E : program_script p abspath escape_path hex_files bin_files
                = OpenOCD.program_commands abspath escape_path
                    hex_files bin_files)
      by (destruct p; try discriminate; reflexivity).
    rewrite E, Ho, openocd_program_commands_eq.
    unfold OpenOCD.loads, OpenOCD.verifies.
    rewrite !count_commands_app.
    rewrite (count_commands_map_all is_load_command
               (OpenOCD.load_hex abspath escape_path)) by reflexivity.
    rewrite (count_commands_map_all is_load_command
               (OpenOCD.load_bin abspath escape_path)) by reflexivity.
    rewrite (count_commands_map_none is_load_command
               (OpenOCD.verify_hex abspath escape_path)) by reflexivity.
    rewrite (count_commands_map_none is_load_command
               (OpenOCD.verify_bin abspath escape_path)) by reflexivity.
    rewrite (count_commands_map_none is_verify_command
               (OpenOCD.load_hex abspath escape_path)) by reflexivity.
    rewrite (count_commands_map_none is_verify_command
               (OpenOCD.load_bin abspath escape_path)) by reflexivity.
    rewrite (count_commands_map_all is_verify_command
               (OpenOCD.verify_hex abspath escape_path)) by reflexivity.
    rewrite (count_commands_map_all is_verify_command
               (OpenOCD.verify_bin abspath escape_path)) by reflexivity.
    split; cbn; lia.
Qed.

(** C2 fails on the J-Link programmer: for one hex file its script has
    one load command and no verify command. *)
Lemma jlink_script_has_no_verify :
  exists p abspath escape_path hex_files bin_files,
    count_commands is_load_command
      (program_script p abspath escape_path hex_files bin_files) = 1
    /\ count_commands is_verify_command
         (program_script p abspath escape_path hex_files bin_files)
       <> List.length hex_files + List.length bin_files.
Proof.
  exists PJLink, (fun f => f), (fun f => f), ["/fw/img_a.hex"], [].
  split; [reflexivity | discriminate].
Qed.

(** ** The order of the script *)

(** C3, as the code has it.  The images of a request are its hex files,
    then its bin files, in the order given, each with its path as the
    script writes it and its place: [0 ihex], or the address in eight
    hexadecimal digits and [bin].  The script of an OpenOCD programmer
    is [init], [reset init], one [load_image] for every image in that
    order, one [verify_image] for every image in the same order, with
    the same path and place, [reset run], [exit]: the verify command of
    the image number [k] stands [N+M] places after its load command, in
    the same script.  The script of the J-Link programmer is [r], one
    [loadfile] for every hex file, one [loadbin] for every bin file,
    [r], [g], [q]: it has no verify command. *)
Theorem program_script_order (p : Programmer)
  (abspath escape_path : string -> string)
  (hex_files : HexFiles) (bin_files : BinFiles) :
  let path f := escape_path (abspath f) in
  let images :=
    map (fun f => (path f, " 0 ihex")) hex_files
    ++ map (fun fa =>
              (path (fst fa),
               (" 0x" ++ Fmt.format_08X (snd fa) ++ " bin")%string))
         bin_files in
  let load image := ("load_image " ++ fst image ++ snd image)%string in
  let verify image := ("verify_image " ++ fst image ++ snd image)%string in
  let n := List.length hex_files + List.length bin_files in
  let script := program_script p abspath escape_path hex_files bin_files in
  if uses_openocd p then
    script
    = ["init"; "reset init"] ++ map load images ++ map verify images
      ++ ["reset run"; "exit"]
    /\ List.length images = n
    /\ (forall k image,
          nth_error images k = Some image ->
          nth_error script (2 + k) = Some (load image)
          /\ nth_error script (2 + n + k) = Some (verify image))
  else
    script
    = ["r"]
      ++ map (fun f =>
                ("loadfile " ++ Text.DQUOTE ++ abspath f ++ Text.DQUOTE)%string)
           hex_files
      ++ map (fun fa =>
                ("loadbin " ++ Text.DQUOTE ++ abspath (fst fa) ++ Text.DQUOTE
                 ++ " 0x" ++ Fmt.format_08X (snd fa))%string)
           bin_files
      ++ ["r"; "g"; "q"].
Proof.
  intros path images load verify n script.
  assert (L : List.length images = n).
  { subst images n. now rewrite length_app, !length_map. }
  assert (J : p = PJLink \/ uses_openocd p = true)
    by (destruct p; auto).
  destruct J as [-> | Ho].
  - cbn [uses_openocd]. subst script. cbn [program_script].
    rewrite jlink_program_commands_eq. reflexivity.
  - rewrite Ho.
    assert (E : script
                = ["init"; "reset init"] ++ map load images
                  ++ map verify images ++ ["reset run"; "exit"]).
    { subst script.
      replace (program_script p abspath escape_path hex_files bin_files)
        with (OpenOCD.program_commands abspath escape_path
                hex_files bin_files)
        by (destruct p; try discriminate; reflexivity).
      rewrite openocd_program_commands_eq.
      unfold OpenOCD.loads, OpenOCD.verifies. subst images load verify path.
      rewrite !map_app, !map_map. cbn [fst snd].
      unfold OpenOCD.load_hex, OpenOCD.load_bin, OpenOCD.verify_hex,
        OpenOCD.verify_bin, OpenOCD.embed.
      reflexivity. }
    split; [exact E|]. split; [exact L|].
    intros k image Hk. rewrite E.
    assert (Hlt : k < List.length images)
      by (apply nth_error_Some; congruence).
    split.
    + change (["init"; "reset init"] ++ map load images
              ++ map verify images ++ ["reset run"; "exit"])
        with ("init" :: "reset init"
              :: (map load images
                  ++ map verify images ++ ["reset run"; "exit"])).
      cbn [Nat.add nth_error].
      rewrite nth_error_app1 by now rewrite length_map.
      rewrite nth_error_map, Hk. reflexivity.
    + change (["init"; "reset init"] ++ map load images
              ++ map verify images ++ ["reset run"; "exit"])
        with ("init" :: "reset init"
              :: (map load images
                  ++ map verify images ++ ["reset run"; "exit"])).
      cbn [Nat.add nth_error].
      rewrite nth_error_app2 by (rewrite length_map; lia).
      rewrite length_map.
      replace (n + k - List.length images) with k by lia.
      rewrite nth_error_app1 by now rewrite length_map.
      rewrite nth_error_map, Hk. reflexivity.
Qed.

(** C3 fails as stated on the J-Link programmer.  For the request of
    the hex file [/fw/img_a.hex] and the bin file [/fw/img_b.bin] at
    [0x00002000] its script is the six commands below: after the two
    load commands come [r], [g] and [q], and no verify command for
    either file. *)
Lemma jlink_script_order :
  let script :=
    program_script PJLink (fun f => f) (fun f => f)
      ["/fw/img_a.hex"] [("/fw/img_b.bin", 8192%Z)] in
  script
  = ["r";
     ("loadfile " ++ Text.DQUOTE ++ "/fw/img_a.hex" ++ Text.DQUOTE)%string;
     ("loadbin " ++ Text.DQUOTE ++ "/fw/img_b.bin" ++ Text.DQUOTE
      ++ " 0x00002000")%string;
     "r"; "g"; "q"]
  /\ List.length script = 6
  /\ existsb (Text.contains "verify") script = false.
Proof. repeat split. Qed.

(** ** Verification *)

Section VerifyFacts.

Variable abspath escape_path : string -> string.
Variable run_commands : Script -> Result string.

Lemma check_verified_ok verified hex_files bin_files :
  Verify.check_verified verified hex_files bin_files = Ok tt
  <-> verified = List.length hex_files + List.length bin_files.
Proof.
  unfold Verify.check_verified.
  destruct (Nat.eqb_spec verified
              (List.length hex_files + List.length bin_files)); simpl;
    split; intros; congruence.
Qed.

Lemma check_verified_fail verified hex_files bin_files :
  verified <> List.length hex_files + List.length bin_files ->
  Verify.check_verified verified hex_files bin_files
  = Raise (AdaLinkError Verify.msg_not_verified).
Proof.
  unfold Verify.check_verified. intros H.
  destruct (Nat.eqb_spec verified
              (List.length hex_files + List.length bin_files)); simpl;
    congruence.
Qed.

(** C1 fails on the code.  The count of the verified lines raises
    [TypeError] itself, so [program] of an OpenOCD programmer never
    returns normally: once the tool has run it ends with [TypeError],
    also when the output has exactly N+M lines that start with
    ['verified '], and the test of the count and its error are never
    reached. *)
Theorem program_verification_raises (hex_files : HexFiles)
  (bin_files : BinFiles) :
  let program :=
    Verify.program abspath escape_path run_commands hex_files bin_files in
  program <> Ok tt
  /\ (forall output,
        run_commands
          (OpenOCD.program_commands abspath escape_path hex_files bin_files)
        = Ok output ->
        program = Raise TypeError)
  /\ (forall e,
        run_commands
          (OpenOCD.program_commands abspath escape_path hex_files bin_files)
        = Raise e ->
        program = Raise e).
Proof.
  intros program. subst program. unfold Verify.program.
  destruct (run_commands _) as [output|e]; simpl.
  - split; [discriminate|]. split; [reflexivity | discriminate].
  - split; [discriminate|]. split; [discriminate|].
    intros e' H. now injection H as ->.
Qed.

End VerifyFacts.

Lemma program_verification_raises_witness :
  let output := "verified 1024 bytes in 0.1s" in
  List.length (Verify.verified_lines output)
  = List.length ["/fw/img_a.hex"] + List.length (@nil (string * Z))
  /\ Verify.program (fun f => f) (fun f => f) (fun _ => Ok output)
       ["/fw/img_a.hex"] []
     = Raise TypeError.
Proof.
  intros output. split; [reflexivity|].
  apply (proj1 (proj2 (program_verification_raises (fun f => f) (fun f => f)
                         (fun _ => Ok output) ["/fw/img_a.hex"] [])) output).
  reflexivity.
Defined.

(** ** The connection check *)

Lemma endswith_app (s suffix : string) :
  Text.endswith suffix (s ++ suffix) = true.
Proof.
  induction s as [|c s IH]; simpl.
  - cbn [append]. destruct suffix; cbn [Text.endswith];
      now rewrite String.eqb_refl.
  - cbn [append Text.endswith]. now rewrite IH, orb_true_r.
Qed.

Lemma msg_not_found_is_not_msg_no_value (name : string) :
  String.eqb (Core.msg_not_found name) JLinkRun.msg_no_value = false.
Proof.
  destruct (String.eqb_spec (Core.msg_not_found name) JLinkRun.msg_no_value)
    as [E|]; [|reflexivity].
  exfalso.
  assert (H : Text.endswith ", is it connected?" JLinkRun.msg_no_value = true).
  { rewrite <- E. unfold Core.msg_not_found.
    change ("Could not find " ++ name ++ ", is it connected?")%string
      with ("Could not find " ++ (name ++ ", is it connected?"))%string.
    rewrite <- string_app_assoc. apply endswith_app. }
  vm_compute in H. discriminate.
Qed.

Lemma failure_of_msg_not_found (name : string) :
  Kinds.failure_of_message (Core.msg_not_found name) = Some Kinds.NotConnected.
Proof.
  unfold Kinds.failure_of_message.
  now rewrite msg_not_found_is_not_msg_no_value.
Qed.

Lemma failure_of_msg_low_voltage (v : string) :
  Kinds.failure_of_message (JLinkRun.msg_low_voltage v) = Some Kinds.LowVoltage.
Proof. reflexivity. Qed.

(** A reading that rounds below 1 is below 1.  With at most 16 digits
    after the dot the converse holds too, so that [float(v) < 1] is the
    exact comparison; with more digits a reading just under 1 rounds to
    1 and passes. *)
Lemma rounds_below_one_sound (m : Z) (k : nat) :
  Parse.rounds_below_one m k = true -> Parse.decimal_lt_1 m k = true.
Proof.
  unfold Parse.rounds_below_one, Parse.decimal_lt_1.
  rewrite !Z.ltb_lt. intros H.
  assert (0 < 10 ^ Z.of_nat k)%Z by (apply Z.pow_pos_nonneg; lia).
  change (2 ^ 54)%Z with 18014398509481984%Z in H. lia.
Qed.

Lemma rounds_below_one_exact (m : Z) (k : nat) :
  k <= 16 -> Parse.rounds_below_one m k = Parse.decimal_lt_1 m k.
Proof.
  intros Hk. unfold Parse.rounds_below_one, Parse.decimal_lt_1.
  assert (P : (0 < 10 ^ Z.of_nat k <= 10 ^ 16)%Z).
  { split; [apply Z.pow_pos_nonneg; lia | apply Z.pow_le_mono_r; lia]. }
  change (10 ^ 16)%Z with 10000000000000000%Z in P.
  change (2 ^ 54)%Z with 18014398509481984%Z.
  destruct (Z.ltb_spec m (10 ^ Z.of_nat k));
    destruct (Z.ltb_spec (m * 18014398509481984)
                ((18014398509481984 - 1) * 10 ^ Z.of_nat k));
    try reflexivity; lia.
Qed.

Lemma reading_just_below_one_passes :
  Parse.decimal_of "0.99999999999999999" = Some (99999999999999999%Z, 17)
  /\ Parse.decimal_lt_1 99999999999999999 17 = true
  /\ Parse.float_lt_1 "0.99999999999999999" = Some false.
Proof. repeat split. Qed.

Lemma span_fst_only (f : ascii -> bool) (s : string) :
  Reading.only f (fst (Text.span f s)) = true.
Proof.
  induction s as [|c s IH]; simpl; [reflexivity|].
  destruct (f c) eqn:E; [|reflexivity].
  destruct (Text.span f s) as [a b]. simpl in *. now rewrite E, IH.
Qed.

Lemma search_voltage_only (output v : string) :
  Parse.search_voltage output = Some v ->
  Reading.only Parse.is_digit_or_dot v = true.
Proof.
  induction output as [|c output IH]; cbn [Parse.search_voltage];
    (destruct (Parse.match_voltage_here _) as [tok|] eqn:E;
     [intros H; injection H as <- | try discriminate; try exact IH]);
    unfold Parse.match_voltage_here in E;
    (destruct (Text.strip_prefix "VTref=" _) as [rest|]; [|discriminate]);
    pose proof (span_fst_only Parse.is_digit_or_dot rest) as O;
    destruct (Text.span Parse.is_digit_or_dot rest) as [t after];
    cbn [fst] in O;
    (destruct t; [discriminate|]);
    (destruct (Text.startswith "V" after); [|discriminate]);
    injection E as <-; exact O.
Qed.

(** [float] rejects a run of digits and dots exactly when it has no
    digit or more than one dot. *)
Lemma scan_decimal_none (s : string) :
  forall (seen_dot : bool) (m : Z) (k digits : nat),
    Reading.only Parse.is_digit_or_dot s = true ->
    (Parse.scan_decimal seen_dot m k digits s = None
     <-> 2 <= (if seen_dot then 1 else 0) + Reading.dots s
         \/ digits + Reading.digits s = 0).
Proof.
  induction s as [|c s IH]; intros seen_dot m k digits H.
  - cbn [Parse.scan_decimal Reading.dots Reading.digits Reading.count].
    destruct (Nat.eqb_spec digits 0); destruct seen_dot;
      split; intros; try discriminate; try tauto; try lia; try reflexivity.
  - cbn [Reading.only] in H. apply andb_prop in H as [Hc Hs].
    cbn [Parse.scan_decimal Reading.dots Reading.digits Reading.count].
    fold (Reading.dots s). fold (Reading.digits s).
    unfold Reading.is_dot, Reading.is_digit.
    unfold Parse.is_digit_or_dot in Hc. cbv zeta in *.
    set (n := Text.code c) in *.
    replace (Z.of_nat n =? 46)%Z with (n =? 46)%nat
      by (destruct (Nat.eqb_spec n 46); destruct (Z.eqb_spec (Z.of_nat n) 46);
          try reflexivity; lia).
    replace ((48 <=? Z.of_nat n) && (Z.of_nat n <=? 57))%Z
      with ((48 <=? n) && (n <=? 57))%nat
      by (destruct (Nat.leb_spec 48 n); destruct (Nat.leb_spec n 57);
          destruct (Z.leb_spec 48 (Z.of_nat n));
          destruct (Z.leb_spec (Z.of_nat n) 57); try reflexivity; lia).
    destruct (Nat.eqb_spec n 46) as [E46|N46].
    + assert (D : ((48 <=? n) && (n <=? 57))%nat = false).
      { rewrite E46. reflexivity. }
      rewrite D. destruct seen_dot.
      * split; [intros _; left; lia | reflexivity].
      * rewrite (IH true m k digits Hs). simpl. split; intros [?|?]; lia.
    + rewrite orb_false_r in Hc. rewrite Hc.
      rewrite (IH seen_dot _ _ (S digits) Hs).
      destruct seen_dot; simpl; split; intros [?|?]; lia.
Qed.

(** C4, as the code has it.  The checks come in this order, and they
    cover every output.
    - The output contains [FAILED]: not connected (no programmer found).
    - Otherwise it has no voltage reading: protocol error.
    - Otherwise the reading, a run of digits and dots, is no number (no
      digit, or more than one dot): [float] raises [ValueError], which
      is none of the classified failures.
    - Otherwise the reading denotes [m / 10^k] and is below 1.0 V: low
      voltage, with or without the found-token, and never
      not-connected.  The comparison is made on the nearest float, which
      is below 1 exactly when the value is below [1 - 2^-54]: for a
      reading of up to 16 decimals this is the same as [m < 10^k], and
      it never holds of a reading of 1.0 V or more.
    - Otherwise the found-token is absent: [is_connected] returns
      [False] and the caller raises not connected.
    - Otherwise the check passes. *)
Theorem connection_check_classification (name connected output : string) :
  let r := Core.connect_check name connected output in
  let found := Text.contains ("Found " ++ connected) output in
  let failed := Text.contains "FAILED" output in
  (failed = true ->
     r = Raise (AdaLinkError JLinkRun.msg_no_programmer)
     /\ Kinds.failure_of r = Some Kinds.NotConnected)
  /\ (failed = false ->
      Parse.search_voltage output = None ->
      r = Raise (AdaLinkError JLinkRun.msg_no_voltage)
      /\ Kinds.failure_of r = Some Kinds.ProtocolError)
  /\ (forall v,
        failed = false ->
        Parse.search_voltage output = Some v ->
        2 <= Reading.dots v \/ Reading.digits v = 0 ->
        r = Raise ValueError /\ Kinds.failure_of r = None)
  /\ (forall v,
        failed = false ->
        Parse.search_voltage output = Some v ->
        Reading.dots v <= 1 -> 1 <= Reading.digits v ->
        exists m k,
          Parse.decimal_of v = Some (m, k)
          /\ ((m * 2 ^ 54 < (2 ^ 54 - 1) * 10 ^ Z.of_nat k)%Z ->
              r = Raise (AdaLinkError (JLinkRun.msg_low_voltage v))
              /\ Kinds.failure_of r = Some Kinds.LowVoltage)
          /\ ((m * 2 ^ 54 >= (2 ^ 54 - 1) * 10 ^ Z.of_nat k)%Z ->
              (found = false ->
               r = Raise (AdaLinkError (Core.msg_not_found name))
               /\ Kinds.failure_of r = Some Kinds.NotConnected)
              /\ (found = true -> r = Ok tt))
          /\ (k <= 16 ->
              ((m * 2 ^ 54 < (2 ^ 54 - 1) * 10 ^ Z.of_nat k)%Z
               <-> (m < 10 ^ Z.of_nat k)%Z))
          /\ ((10 ^ Z.of_nat k <= m)%Z ->
              (m * 2 ^ 54 >= (2 ^ 54 - 1) * 10 ^ Z.of_nat k)%Z)).
Proof.
  intros r found failed. subst r found failed.
  unfold Core.connect_check, JLinkRun.is_connected_parse.
  split; [intros H; rewrite H; split; reflexivity |].
  split; [intros H H0; rewrite H, H0; split; reflexivity |].
  split.
  - intros v H H0 Hbad. rewrite H, H0.
    pose proof (search_voltage_only _ H0) as O.
    assert (N : Parse.decimal_of v = None).
    { unfold Parse.decimal_of. apply scan_decimal_none; [exact O|].
      simpl. exact Hbad. }
    unfold Parse.float_lt_1. rewrite N. split; reflexivity.
  - intros v H H0 Hdots Hdigits. rewrite H, H0.
    pose proof (search_voltage_only _ H0) as O.
    destruct (Parse.decimal_of v) as [[m k]|] eqn:D.
    2:{ exfalso. unfold Parse.decimal_of in D.
        apply scan_decimal_none in D; [|exact O]. simpl in D. lia. }
    exists m, k. split; [reflexivity|].
    unfold Parse.float_lt_1. rewrite D.
    assert (P : (0 < 10 ^ Z.of_nat k)%Z) by (apply Z.pow_pos_nonneg; lia).
    split; [|split; [|split]].
    + intros Hlt.
      assert (B : Parse.rounds_below_one m k = true)
        by (unfold Parse.rounds_below_one; now apply Z.ltb_lt).
      rewrite B. split; [reflexivity | apply failure_of_msg_low_voltage].
    + intros Hge.
      assert (B : Parse.rounds_below_one m k = false)
        by (unfold Parse.rounds_below_one; apply Z.ltb_ge; lia).
      rewrite B. cbn [bind].
      split; intros Hf; rewrite Hf; cbn [negb].
      * split; [reflexivity | apply failure_of_msg_not_found].
      * reflexivity.
    + intros Hk.
      pose proof (rounds_below_one_exact m Hk) as X.
      unfold Parse.rounds_below_one, Parse.decimal_lt_1 in X.
      rewrite <- !Z.ltb_lt. now rewrite X.
    + intros Hge. change (2 ^ 54)%Z with 18014398509481984%Z. lia.
Qed.

Lemma connection_check_classification_witness :
  exists m k,
    Parse.decimal_of "0.512" = Some (m, k)
    /\ (m < 10 ^ Z.of_nat k)%Z
    /\ Core.connect_check "samd21" "Cortex-M0 r0p1, Little endian"
         "Found Cortex-M0 r0p1, Little endian VTref=0.512V"
       = Raise (AdaLinkError (JLinkRun.msg_low_voltage "0.512"))
    /\ Kinds.failure_of
         (Core.connect_check "samd21" "Cortex-M0 r0p1, Little endian"
            "Found Cortex-M0 r0p1, Little endian VTref=0.512V")
       = Some Kinds.LowVoltage.
Proof.
  destruct (proj2 (proj2 (proj2
              (connection_check_classification "samd21"
                 "Cortex-M0 r0p1, Little endian"
                 "Found Cortex-M0 r0p1, Little endian VTref=0.512V")))
              "0.512" eq_refl eq_refl)
    as [m [k [D [Low _]]]].
  - vm_compute. lia.
  - vm_compute. lia.
  - exists m, k. injection D as <- <-.
    split; [reflexivity|]. split; [vm_compute; reflexivity|].
    apply Low. vm_compute. reflexivity.
Defined.

(** C4 fails as stated.  On the empty output the found-token is absent,
    yet the failure is the protocol error, not not-connected.  And an
    output with the found-token and 0.5 V that also contains [FAILED]
    fails as not connected. *)
Lemma connection_check_order :
  Text.contains "Found Cortex-M0" "" = false
  /\ Kinds.failure_of (Core.connect_check "samd21" "Cortex-M0" "")
     = Some Kinds.ProtocolError
  /\ Text.contains "Found Cortex-M0" "Found Cortex-M0 VTref=0.5V FAILED" = true
  /\ Parse.search_voltage "Found Cortex-M0 VTref=0.5V FAILED" = Some "0.5"
  /\ Kinds.failure_of
       (Core.connect_check "samd21" "Cortex-M0"
          "Found Cortex-M0 VTref=0.5V FAILED")
     = Some Kinds.NotConnected.
Proof. repeat split. Qed.

(** ** Hexadecimal text *)

Section HexFacts.

Local Open Scope Z_scope.

Lemma hex_digit_spec (d : Z) :
  0 <= d < 16 ->
  Parse.hex_val (Fmt.hex_digit d) = Some d
  /\ Ascii.eqb (Fmt.hex_digit d) Text.LF = false.
Proof.
  intros H.
  assert (C : d = 0 \/ d = 1 \/ d = 2 \/ d = 3 \/ d = 4 \/ d = 5 \/ d = 6
              \/ d = 7 \/ d = 8 \/ d = 9 \/ d = 10 \/ d = 11 \/ d = 12
              \/ d = 13 \/ d = 14 \/ d = 15) by lia.
  repeat (destruct C as [-> | C]; [split; reflexivity |]).
  subst d. split; reflexivity.
Qed.

(** What being a hexadecimal digit excludes. *)
Lemma is_hex_excludes (c : ascii) :
  Parse.is_hex c = true ->
  Ascii.eqb c "-" = false /\ Ascii.eqb c "+" = false
  /\ Ascii.eqb c "_" = false /\ Ascii.eqb c "x" = false
  /\ Ascii.eqb c "X" = false /\ Text.isspace c = false.
Proof.
  destruct c as [[|] [|] [|] [|] [|] [|] [|] [|]];
    vm_compute; intros H; try discriminate H; repeat split.
Qed.

Lemma hex_val_range (c : ascii) (d : Z) :
  Parse.hex_val c = Some d -> 0 <= d < 16.
Proof.
  unfold Parse.hex_val.
  repeat match goal with
         | |- context [if ?b then _ else _] => destruct b eqn:?
         end; intros E; inversion E; subst; lia.
Qed.

Lemma hex_value_from_app (a b : string) (acc : Z) :
  Parse.hex_value_from acc (a ++ b)
  = Parse.hex_value_from (Parse.hex_value_from acc a) b.
Proof.
  revert acc. induction a as [|c a IH]; intros acc; simpl;
    [reflexivity | apply IH].
Qed.

Lemma all_hex_app (a b : string) :
  Parse.all_hex (a ++ b) = Parse.all_hex a && Parse.all_hex b.
Proof.
  induction a as [|c a IH]; simpl; [reflexivity|].
  now rewrite IH, andb_assoc.
Qed.

Lemma no_lf_app (a b : string) :
  Parse.no_lf (a ++ b) = Parse.no_lf a && Parse.no_lf b.
Proof.
  induction a as [|c a IH]; simpl; [reflexivity|].
  now rewrite IH, andb_assoc.
Qed.

Lemma hex_digits_all_hex (k : nat) (n : Z) :
  Parse.all_hex (Fmt.hex_digits k n) = true
  /\ Parse.no_lf (Fmt.hex_digits k n) = true.
Proof.
  revert n. induction k as [|k IH]; intros n; simpl; [split; reflexivity|].
  rewrite all_hex_app, no_lf_app.
  destruct (IH (n / 16)) as [-> ->]. simpl.
  assert (R : 0 <= n mod 16 < 16) by (apply Z.mod_pos_bound; lia).
  destruct (hex_digit_spec R) as [Hv Hl].
  unfold Parse.is_hex. rewrite Hv, Hl. split; reflexivity.
Qed.

Lemma hex_digits_length (k : nat) (n : Z) :
  String.length (Fmt.hex_digits k n) = k.
Proof.
  revert n. induction k as [|k IH]; intros n; simpl; [reflexivity|].
  rewrite string_app_length, IH. simpl. lia.
Qed.

Lemma hex_value_from_digits (k : nat) (n acc : Z) :
  0 <= n ->
  Parse.hex_value_from acc (Fmt.hex_digits k n)
  = acc * 16 ^ Z.of_nat k + n mod 16 ^ Z.of_nat k.
Proof.
  revert n acc. induction k as [|k IH]; intros n acc Hn.
  - simpl. rewrite Z.mod_1_r. lia.
  - cbn [Fmt.hex_digits]. rewrite hex_value_from_app.
    rewrite IH by (apply Z.div_pos; lia).
    cbn [Parse.hex_value_from].
    assert (R : 0 <= n mod 16 < 16) by (apply Z.mod_pos_bound; lia).
    destruct (hex_digit_spec R) as [-> _].
    rewrite Nat2Z.inj_succ, Z.pow_succ_r by lia.
    rewrite (Z.rem_mul_r n 16 (16 ^ Z.of_nat k)) by lia.
    lia.
Qed.

Lemma hex_len_bound (n : Z) : 0 <= n -> n < 16 ^ Z.of_nat (Fmt.hex_len n).
Proof.
  intros Hn. unfold Fmt.hex_len.
  assert (Hq : 0 <= Z.log2 n / 4) by (apply Z.div_pos; [apply Z.log2_nonneg | lia]).
  rewrite Nat2Z.inj_succ, Z2Nat.id by assumption.
  destruct (Z.eq_dec n 0) as [-> | Hnz].
  - apply Z.pow_pos_nonneg; lia.
  - assert (Hs : n < 2 ^ Z.succ (Z.log2 n)) by (apply Z.log2_spec; lia).
    assert (Hd : Z.succ (Z.log2 n) <= 4 * Z.succ (Z.log2 n / 4)).
    { pose proof (Z.mod_pos_bound (Z.log2 n) 4 ltac:(lia)).
      pose proof (Z.div_mod (Z.log2 n) 4 ltac:(lia)). lia. }
    replace 16 with (2 ^ 4) by reflexivity.
    rewrite <- Z.pow_mul_r by lia.
    eapply Z.lt_le_trans; [exact Hs|].
    apply Z.pow_le_mono_r; lia.
Qed.

Lemma hex_value_bounds (s : string) (acc : Z) :
  Parse.all_hex s = true -> 0 <= acc ->
  0 <= Parse.hex_value_from acc s
  < (acc + 1) * 16 ^ Z.of_nat (String.length s).
Proof.
  revert acc. induction s as [|c s IH]; intros acc Hs Ha.
  - simpl. lia.
  - simpl in Hs. apply andb_prop in Hs as [Hc Hs].
    cbn [Parse.hex_value_from String.length].
    unfold Parse.is_hex in Hc.
    destruct (Parse.hex_val c) as [d|] eqn:Ed; [|discriminate].
    apply hex_val_range in Ed.
    specialize (IH (16 * acc + d) Hs ltac:(lia)).
    rewrite Nat2Z.inj_succ, Z.pow_succ_r by lia.
    assert (0 < 16 ^ Z.of_nat (String.length s)) by (apply Z.pow_pos_nonneg; lia).
    nia.
Qed.

Lemma digits_loop_all_hex (s : string) (acc : Z) :
  Parse.all_hex s = true ->
  Parse.digits_loop false acc s = Some (Parse.hex_value_from acc s).
Proof.
  revert acc. induction s as [|c s IH]; intros acc Hs; [reflexivity|].
  simpl in Hs. apply andb_prop in Hs as [Hc Hs].
  cbn [Parse.digits_loop Parse.hex_value_from].
  destruct (is_hex_excludes c Hc) as (_ & _ & -> & _).
  unfold Parse.is_hex in Hc.
  destruct (Parse.hex_val c) as [d|]; [apply IH, Hs | discriminate].
Qed.

(** [int(s, 16)] on a run of hexadecimal digits is the number they
    write. *)
Lemma py_int16_all_hex (s : string) :
  Parse.all_hex s = true -> s <> EmptyString ->
  Parse.py_int16 s = Some (Parse.hex_value s).
Proof.
  intros Hs Hne. destruct s as [|c s]; [congruence|].
  pose proof Hs as Hs'. simpl in Hs'. apply andb_prop in Hs' as [Hc Hr].
  destruct (is_hex_excludes c Hc) as (E1 & E2 & E3 & _).
  unfold Parse.py_int16, Parse.strip_sign. rewrite E1, E2.
  assert (E0 : Parse.strip_0x (String c s) = String c s).
  { unfold Parse.strip_0x. destruct s as [|x r]; [reflexivity|].
    simpl in Hr. apply andb_prop in Hr as [Hx _].
    destruct (is_hex_excludes x Hx) as (_ & _ & _ & -> & -> & _).
    now rewrite andb_false_r. }
  rewrite E0, E3, digits_loop_all_hex by assumption. reflexivity.
Qed.

(** Formatting then reading a natural number gives it back. *)
Lemma format_X_roundtrip (w : nat) (n : Z) :
  0 <= n ->
  Parse.all_hex (Fmt.format_X w n) = true
  /\ Fmt.format_X w n <> EmptyString
  /\ Parse.hex_value (Fmt.format_X w n) = n.
Proof.
  intros Hn. unfold Fmt.format_X.
  destruct (Z.ltb_spec n 0) as [|_]; [lia|].
  set (k := Nat.max w (Fmt.hex_len n)).
  assert (Hk : (Fmt.hex_len n <= k)%nat) by (subst k; lia).
  repeat split.
  - apply hex_digits_all_hex.
  - intros E. apply (f_equal String.length) in E.
    rewrite hex_digits_length in E. simpl in E.
    unfold Fmt.hex_len in Hk. lia.
  - unfold Parse.hex_value. rewrite hex_value_from_digits by assumption.
    rewrite Z.mod_small; [lia|]. split; [assumption|].
    eapply Z.lt_le_trans; [apply hex_len_bound; assumption|].
    apply Z.pow_le_mono_r; lia.
Qed.

End HexFacts.

(** ** The register pattern *)

Section SearchFacts.

Lemma eqb_nocase_LF (a : ascii) :
  Parse.eqb_nocase a Text.LF = Ascii.eqb a Text.LF.
Proof.
  destruct a as [[|] [|] [|] [|] [|] [|] [|] [|]]; reflexivity.
Qed.

(** A capture stops at the first character out of the class, whatever
    follows it. *)
Lemma span_fst_stop (f : ascii -> bool) (s : string) (c : ascii) (t : string) :
  f c = false ->
  fst (Text.span f (s ++ String c t)) = fst (Text.span f s).
Proof.
  intros Hc. induction s as [|x s IH]; simpl.
  - now rewrite Hc.
  - destruct (f x); [|reflexivity].
    destruct (Text.span f (s ++ String c t)) as [a b].
    destruct (Text.span f s) as [a' b']. simpl in *. now rewrite IH.
Qed.

Lemma span_fst_all (f : ascii -> bool) (tok post : string) :
  (forall c r, post = String c r -> f c = false) ->
  fst (Text.span f tok) = tok ->
  fst (Text.span f (tok ++ post)) = tok.
Proof.
  intros Hpost. induction tok as [|x tok IH]; simpl.
  - intros _. destruct post as [|c r]; [reflexivity|].
    simpl. now rewrite (Hpost c r eq_refl).
  - destruct (f x); [|discriminate].
    destruct (Text.span f (tok ++ post)) as [a b].
    destruct (Text.span f tok) as [a' b']. simpl in *.
    intros E. injection E as E. now rewrite IH.
Qed.

Lemma span_all_hex (tok : string) :
  Parse.all_hex tok = true -> fst (Text.span Text.nonspace tok) = tok.
Proof.
  induction tok as [|x tok IH]; simpl; [reflexivity|].
  intros H. apply andb_prop in H as [Hx Ht].
  destruct (is_hex_excludes x Hx) as (_ & _ & _ & _ & _ & Hs).
  unfold Text.nonspace at 1. rewrite Hs. simpl.
  destruct (Text.span Text.nonspace tok) as [a b]. simpl in *. now rewrite IH.
Qed.

Lemma match_register_here_capture (address s : string) :
  Parse.match_register_here address s
  = match Parse.capture_after (address ++ " = ") s with
    | Some EmptyString => None
    | Some tok => Some tok
    | None => None
    end.
Proof.
  unfold Parse.match_register_here, Parse.capture_after.
  destruct (Parse.strip_prefix_nocase (address ++ " = ") s) as [rest|];
    [destruct (fst (Text.span Text.nonspace rest)) |]; reflexivity.
Qed.

Lemma strip_prefix_nocase_app (p1 p2 s1 s2 : string) :
  Parse.equal_nocase p1 s1 = true ->
  Parse.strip_prefix_nocase (p1 ++ p2) (s1 ++ s2)
  = Parse.strip_prefix_nocase p2 s2.
Proof.
  unfold Parse.equal_nocase. revert s1.
  induction p1 as [|a p1 IH]; intros s1 H.
  - simpl in H. destruct s1; [reflexivity | discriminate].
  - destruct s1 as [|b s1]; simpl in *; [discriminate|].
    destruct (Parse.eqb_nocase a b); [apply IH, H | discriminate].
Qed.

Lemma match_register_here_nonempty (address s tok : string) :
  Parse.match_register_here address s = Some tok -> tok <> EmptyString.
Proof.
  unfold Parse.match_register_here.
  destruct (Parse.strip_prefix_nocase _ s) as [rest|]; [|discriminate].
  destruct (fst (Text.span _ rest)); [discriminate|].
  intros E. injection E as <-. discriminate.
Qed.

Lemma search_register_nonempty (address s tok : string) (bol : bool) :
  Parse.search_register_from address bol s = Some tok -> tok <> EmptyString.
Proof.
  revert bol. induction s as [|c s IH]; intros bol;
    cbn [Parse.search_register_from]; destruct bol;
    try (destruct (Parse.match_register_here address _) eqn:E;
         [intros H; injection H as <-;
          eapply match_register_here_nonempty; eassumption|]);
    try discriminate; apply IH.
Qed.

(** The text of an address has no line feed in it. *)
Lemma format_08X_no_lf (address : Z) :
  Parse.no_lf (Fmt.format_08X address ++ " = ") = true.
Proof.
  rewrite no_lf_app. unfold Fmt.format_08X, Fmt.format_X.
  destruct (address <? 0)%Z; cbn [append Parse.no_lf];
    now rewrite (proj2 (hex_digits_all_hex _ _)).
Qed.

End SearchFacts.

(** ** The search, line by line *)

Section LineSearch.

Lemma lower_blank (b : ascii) : Parse.lower b = " "%char -> b = " "%char.
Proof.
  destruct b as [[|] [|] [|] [|] [|] [|] [|] [|]];
    intros H; try reflexivity; discriminate H.
Qed.

Lemma lower_equals (b : ascii) : Parse.lower b = "="%char -> b = "="%char.
Proof.
  destruct b as [[|] [|] [|] [|] [|] [|] [|] [|]];
    intros H; try reflexivity; discriminate H.
Qed.

Lemma lowercase_app (a b : string) :
  Lines.lowercase (a ++ b) = (Lines.lowercase a ++ Lines.lowercase b)%string.
Proof. induction a as [|c a IH]; simpl; [reflexivity | now rewrite IH]. Qed.

Lemma lowercase_app_inv (x y s : string) :
  Lines.lowercase s = (x ++ y)%string ->
  exists s1 s2,
    s = (s1 ++ s2)%string /\ Lines.lowercase s1 = x /\ Lines.lowercase s2 = y.
Proof.
  revert s. induction x as [|c x IH]; intros s H.
  - exists EmptyString, s. repeat split. exact H.
  - destruct s as [|b s]; [discriminate H|].
    cbn [Lines.lowercase append] in H. injection H as Hb Hs.
    destruct (IH s Hs) as [s1 [s2 [-> [H1 H2]]]].
    exists (String b s1), s2. repeat split; [|exact H2].
    cbn [Lines.lowercase]. now rewrite Hb, H1.
Qed.

Lemma lowercase_separator (s : string) :
  Lines.lowercase s = " = " -> s = " = ".
Proof.
  destruct s as [|b1 [|b2 [|b3 [|b4 s]]]]; try discriminate.
  cbn [Lines.lowercase]. intros H. injection H as H1 H2 H3.
  now rewrite (lower_blank _ H1), (lower_equals _ H2), (lower_blank _ H3).
Qed.

(** What remains of [s] after a prefix equal to [p] up to case. *)
Lemma strip_prefix_nocase_spec (p s rest : string) :
  Parse.strip_prefix_nocase p s = Some rest
  <-> exists sp, s = (sp ++ rest)%string
                 /\ Lines.lowercase sp = Lines.lowercase p.
Proof.
  revert s. induction p as [|a p IH]; intros s.
  - cbn [Parse.strip_prefix_nocase Lines.lowercase]. split.
    + intros H. injection H as ->. now exists EmptyString.
    + intros [sp [-> H]]. destruct sp; [reflexivity | discriminate H].
  - destruct s as [|b s]; cbn [Parse.strip_prefix_nocase Lines.lowercase].
    + split; [discriminate|].
      intros [sp [E H]]. destruct sp; [discriminate H | discriminate E].
    + unfold Parse.eqb_nocase.
      destruct (Ascii.eqb_spec (Parse.lower a) (Parse.lower b)) as [E|N].
      * rewrite IH. split.
        -- intros [sp [-> H]]. exists (String b sp). split; [reflexivity|].
           cbn [Lines.lowercase]. now rewrite H, E.
        -- intros [sp [Es H]]. destruct sp as [|b' sp]; [discriminate H|].
           cbn [append] in Es. injection Es as <- ->.
           cbn [Lines.lowercase] in H. injection H as _ H.
           now exists sp.
      * split; [discriminate|].
        intros [sp [Es H]]. destruct sp as [|b' sp]; [discriminate H|].
        cbn [append] in Es. injection Es as <- _.
        cbn [Lines.lowercase] in H. injection H as H _. congruence.
Qed.

Lemma span_nonspace_head (rest : string) :
  fst (Text.span Text.nonspace rest) <> EmptyString
  <-> exists c r, rest = String c r /\ Text.isspace c = false.
Proof.
  destruct rest as [|c r]; cbn [Text.span].
  - split; [intros H; now elim H | intros [c [r [H _]]]; discriminate H].
  - unfold Text.nonspace at 1. destruct (Text.isspace c) eqn:E; cbn [negb].
    + split; [intros H; now elim H|].
      intros [c' [r' [H E']]]. injection H as <- _. congruence.
    + destruct (Text.span Text.nonspace r) as [x y]. cbn [fst].
      split; [intros _; now exists c, r | discriminate].
Qed.

(** The pattern matches at the start of a text exactly when the text
    starts as a reading of the address does. *)
Lemma match_register_here_starts (address s : string) :
  (exists tok, Parse.match_register_here address s = Some tok)
  <-> Lines.starts_reading address s.
Proof.
  unfold Parse.match_register_here, Lines.starts_reading. split.
  - intros [tok H].
    destruct (Parse.strip_prefix_nocase (address ++ " = ") s) as [rest|] eqn:E;
      [|discriminate H].
    apply strip_prefix_nocase_spec in E. destruct E as [sp [-> Hsp]].
    rewrite lowercase_app in Hsp.
    apply lowercase_app_inv in Hsp.
    destruct Hsp as [la [sep [-> [Hla Hsep]]]].
    apply lowercase_separator in Hsep. subst sep.
    assert (N : fst (Text.span Text.nonspace rest) <> EmptyString).
    { destruct (fst (Text.span Text.nonspace rest)); [discriminate H|].
      discriminate. }
    apply span_nonspace_head in N. destruct N as [c [r [-> Hc]]].
    exists la, c, r. split; [|split; assumption].
    now rewrite string_app_assoc.
  - intros [la [c [r [-> [Hla Hc]]]]].
    assert (E : Parse.strip_prefix_nocase (address ++ " = ")
                  (la ++ " = " ++ String c r)
                = Some (String c r)).
    { apply strip_prefix_nocase_spec. exists (la ++ " = ")%string. split.
      - now rewrite string_app_assoc.
      - now rewrite !lowercase_app, Hla. }
    rewrite E.
    assert (N : fst (Text.span Text.nonspace (String c r)) <> EmptyString).
    { apply span_nonspace_head. now exists c, r. }
    destruct (fst (Text.span Text.nonspace (String c r))) as [|x t];
      [now elim N | now exists (String x t)].
Qed.

Lemma match_register_here_none (address s : string) :
  Parse.match_register_here address s = None
  <-> ~ Lines.starts_reading address s.
Proof.
  rewrite <- match_register_here_starts.
  destruct (Parse.match_register_here address s) as [tok|].
  - split; [discriminate | intros H; elim H; now exists tok].
  - split; [intros _ [tok H]; discriminate H | reflexivity].
Qed.

(** A pattern without a line feed is matched within the first line. *)
Lemma capture_after_first_line (p l rest : string) :
  Parse.no_lf p = true ->
  Parse.capture_after p (l ++ String Text.LF rest) = Parse.capture_after p l.
Proof.
  revert l. induction p as [|a p IH]; intros l Hp.
  - unfold Parse.capture_after. cbn [Parse.strip_prefix_nocase].
    now rewrite span_fst_stop by reflexivity.
  - simpl in Hp. apply andb_prop in Hp as [Ha Hp].
    destruct l as [|b l]; unfold Parse.capture_after in *;
      cbn [append Parse.strip_prefix_nocase].
    + rewrite eqb_nocase_LF. apply negb_true_iff in Ha. now rewrite Ha.
    + destruct (Parse.eqb_nocase a b); [apply IH, Hp | reflexivity].
Qed.

Lemma split_lf_from_head (s cur : string) :
  exists l more,
    Lines.split_lf_from cur s = (cur ++ l)%string :: more
    /\ (s = l \/ exists r, s = (l ++ String Text.LF r)%string).
Proof.
  revert cur. induction s as [|c s IH]; intros cur.
  - exists EmptyString, []. split; [|now left].
    cbn [Lines.split_lf_from]. now rewrite string_app_nil_r.
  - cbn [Lines.split_lf_from].
    destruct (Ascii.eqb_spec c Text.LF) as [->|N].
    + exists EmptyString, (Lines.split_lf_from EmptyString s). split.
      * now rewrite string_app_nil_r.
      * right. now exists s.
    + destruct (IH (cur ++ String c EmptyString)%string) as [l [more [E D]]].
      exists (String c l), more. split.
      * rewrite E. now rewrite string_app_assoc.
      * destruct D as [->|[r ->]]; [now left | right; now exists r].
Qed.

(** [re.search] with [^] and [re.MULTILINE] tries the lines one after
    the other, from their starts: the result is that of the first line,
    taken at line feeds, at whose start the pattern matches. *)
Lemma search_register_lines (address : string) :
  Parse.no_lf (address ++ " = ") = true ->
  forall s,
    (forall cur,
        Parse.search_register_from address false s
        = Lines.first_match (Parse.match_register_here address)
            (tl (Lines.split_lf_from cur s)))
    /\ Parse.search_register_from address true s
       = Lines.first_match (Parse.match_register_here address)
           (Lines.split_lf_from EmptyString s).
Proof.
  intros Hp.
  assert (Step : forall s,
             (forall cur,
                 Parse.search_register_from address false s
                 = Lines.first_match (Parse.match_register_here address)
                     (tl (Lines.split_lf_from cur s))) ->
             Parse.search_register_from address true s
             = Lines.first_match (Parse.match_register_here address)
                 (Lines.split_lf_from EmptyString s)).
  { intros s F. specialize (F EmptyString).
    destruct (split_lf_from_head s EmptyString) as [l [more [E D]]].
    rewrite E in *. cbn [append tl Lines.first_match] in *.
    assert (M : Parse.match_register_here address s
                = Parse.match_register_here address l).
    { destruct D as [->|[r ->]]; [reflexivity|].
      rewrite !match_register_here_capture.
      now rewrite capture_after_first_line. }
    rewrite <- M, <- F.
    destruct s; cbn [Parse.search_register_from];
      destruct (Parse.match_register_here address _); reflexivity. }
  induction s as [|c s [IHf IHt]].
  - split; [intros cur; reflexivity | reflexivity].
  - assert (F : forall cur,
               Parse.search_register_from address false (String c s)
               = Lines.first_match (Parse.match_register_here address)
                   (tl (Lines.split_lf_from cur (String c s)))).
    { intros cur. cbn [Parse.search_register_from Lines.split_lf_from].
      destruct (Ascii.eqb c Text.LF).
      - cbn [tl]. exact IHt.
      - apply IHf. }
    split; [exact F | apply Step, F].
Qed.

Lemma first_match_none (f : string -> option string) (lines : list string) :
  Lines.first_match f lines = None <-> forall l, In l lines -> f l = None.
Proof.
  induction lines as [|x lines IH]; cbn [Lines.first_match In].
  - split; [intros _ l [] | reflexivity].
  - destruct (f x) eqn:E.
    + split; [discriminate|]. intros H.
      rewrite (H x (or_introl eq_refl)) in E. discriminate E.
    + rewrite IH. split.
      * intros H l [<-|Hl]; [exact E | now apply H].
      * intros H l Hl. apply H. now right.
Qed.

Lemma first_match_app (f : string -> option string)
  (before : list string) (line : string) (after : list string) :
  Forall (fun l => f l = None) before ->
  Lines.first_match f (before ++ line :: after)
  = match f line with
    | Some t => Some t
    | None => Lines.first_match f after
    end.
Proof.
  induction 1 as [|x before Hx _ IH]; cbn [app Lines.first_match];
    [reflexivity | now rewrite Hx].
Qed.

Lemma lowercase_equal_nocase (a b : string) :
  Lines.lowercase b = Lines.lowercase a -> Parse.equal_nocase a b = true.
Proof.
  intros H. unfold Parse.equal_nocase.
  assert (E : Parse.strip_prefix_nocase a b = Some EmptyString).
  { apply strip_prefix_nocase_spec. exists b.
    split; [now rewrite string_app_nil_r | exact H]. }
  now rewrite E.
Qed.

End LineSearch.

(** ** Register reads *)

Section ReadFacts.

Variable tool : JLinkRun.Tool.

Lemma readmem_unfold (address : Z) (command output : string) :
  JLinkRun.run_commands tool
    [(command ++ " " ++ Fmt.format_08X address ++ " 1")%string; "q"]
    JLinkRun.default_timeout
  = Ok output ->
  JLinkRun._readmem tool address command
  = JLinkRun.readmem_parse (Fmt.format_08X address) output.
Proof. intros H. unfold JLinkRun._readmem. now rewrite H. Qed.

Lemma match_register_here_value (address line_address tok post : string) :
  Lines.lowercase line_address = Lines.lowercase address ->
  Parse.all_hex tok = true -> tok <> EmptyString ->
  (forall c r, post = String c r -> Text.isspace c = true) ->
  Parse.match_register_here address (line_address ++ " = " ++ tok ++ post)
  = Some tok.
Proof.
  intros Haddr Htok Hne Hpost.
  rewrite match_register_here_capture. unfold Parse.capture_after.
  rewrite (@strip_prefix_nocase_app address " = " line_address _
             (lowercase_equal_nocase _ _ Haddr)).
  change (Parse.strip_prefix_nocase " = " (" = " ++ tok ++ post))
    with (Some (tok ++ post)%string).
  cbv beta iota. rewrite span_fst_all.
  - destruct tok; [congruence | reflexivity].
  - intros c r E. unfold Text.nonspace. now rewrite (Hpost c r E).
  - now apply span_all_hex.
Qed.

Lemma search_register_split_lf (address : Z) (output : string) :
  Parse.search_register (Fmt.format_08X address) output
  = Lines.first_match (Parse.match_register_here (Fmt.format_08X address))
      (Lines.split_lf output).
Proof.
  unfold Parse.search_register, Lines.split_lf.
  apply search_register_lines, format_08X_no_lf.
Qed.

(** C5, as the code has it.  The lines of the output are its pieces
    between line feeds.  Take the first line that starts with the
    address in 8-digit hexadecimal (letters in either case), [ = ] and a
    character that is not white space: when that line continues with a
    hexadecimal value, ended by white space or by the end of the line,
    the read returns exactly that value.  Formatting a value in
    hexadecimal, to any width, gives such a token, and the token reads
    back as the value.  The read raises the could-not-find error exactly
    when no line starts in that way; it returns no number then, 0
    included. *)
Theorem readmem_roundtrip (address : Z) (command output : string) :
  let a := Fmt.format_08X address in
  JLinkRun.run_commands tool
    [(command ++ " " ++ a ++ " 1")%string; "q"] JLinkRun.default_timeout
  = Ok output ->
  (forall (before after : list string) (line line_address tok post : string),
      Lines.split_lf output = before ++ line :: after ->
      Forall (fun l => ~ Lines.starts_reading a l) before ->
      line = (line_address ++ " = " ++ tok ++ post)%string ->
      Lines.lowercase line_address = Lines.lowercase a ->
      Parse.all_hex tok = true -> tok <> EmptyString ->
      (forall c r, post = String c r -> Text.isspace c = true) ->
      JLinkRun._readmem tool address command = Ok (Parse.hex_value tok))
  /\ (forall (w : nat) (value : Z),
        (0 <= value)%Z ->
        Parse.all_hex (Fmt.format_X w value) = true
        /\ Fmt.format_X w value <> EmptyString
        /\ Parse.hex_value (Fmt.format_X w value) = value)
  /\ ((forall l, In l (Lines.split_lf output) -> ~ Lines.starts_reading a l)
      <-> JLinkRun._readmem tool address command
          = Raise (AdaLinkError JLinkRun.msg_no_value))
  /\ Kinds.failure_of
       (Raise (AdaLinkError JLinkRun.msg_no_value) : Result Z)
     = Some Kinds.ParseError.
Proof.
  intros a Hrun. subst a. rewrite (readmem_unfold _ _ Hrun).
  unfold JLinkRun.readmem_parse. rewrite search_register_split_lf.
  split; [|split; [|split]].
  - intros before after line line_address tok post Hsplit Hbefore
      -> Haddr Hhex Hne Hpost.
    rewrite Hsplit, first_match_app.
    + rewrite (@match_register_here_value _ _ _ _ Haddr Hhex Hne Hpost).
      now rewrite py_int16_all_hex.
    + eapply Forall_impl; [|exact Hbefore].
      intros l Hl. now apply match_register_here_none.
  - intros w value Hv. now apply format_X_roundtrip.
  - split.
    + intros Hnone.
      assert (E : Lines.first_match
                    (Parse.match_register_here (Fmt.format_08X address))
                    (Lines.split_lf output) = None).
      { apply first_match_none. intros l Hl.
        now apply match_register_here_none, Hnone. }
      now rewrite E.
    + intros H l Hl. apply match_register_here_none.
      destruct (Lines.first_match _ (Lines.split_lf output)) as [g|] eqn:E.
      * destruct (Parse.py_int16 g); discriminate H.
      * exact (proj1 (first_match_none _ _) E l Hl).
  - reflexivity.
Qed.

(** C9, as the code has it.  A successful read returns the integer that
    [int(_, 16)] reads from the captured token, whatever the width asked
    for.  When the token is [k] hexadecimal digits the value is a
    natural number below [16^k]; the width puts no bound on it. *)
Theorem readmem_value_of_token (width : nat) (address : Z) (output : string) :
  let a := Fmt.format_08X address in
  JLinkRun.run_commands tool
    [(JLinkRun.mem_command width ++ " " ++ a ++ " 1")%string; "q"]
    JLinkRun.default_timeout
  = Ok output ->
  (forall v,
      JLinkRun.readmem tool width address = Ok v ->
      exists tok,
        Parse.search_register a output = Some tok
        /\ Parse.py_int16 tok = Some v)
  /\ (forall tok,
        Parse.search_register a output = Some tok ->
        Parse.all_hex tok = true ->
        JLinkRun.readmem tool width address = Ok (Parse.hex_value tok)
        /\ (0 <= Parse.hex_value tok < 16 ^ Z.of_nat (String.length tok))%Z).
Proof.
  intros a Hrun. subst a. unfold JLinkRun.readmem.
  rewrite (readmem_unfold _ _ Hrun). unfold JLinkRun.readmem_parse.
  split.
  - intros v H.
    destruct (Parse.search_register _ output) as [tok|]; [|discriminate].
    exists tok. split; [reflexivity|].
    destruct (Parse.py_int16 tok); [now injection H as -> | discriminate].
  - intros tok Hs Hhex. rewrite Hs.
    assert (Hne : tok <> EmptyString)
      by (eapply search_register_nonempty; exact Hs).
    rewrite py_int16_all_hex by assumption.
    split; [reflexivity|].
    pose proof (@hex_value_bounds tok 0%Z Hhex ltac:(lia)) as B.
    unfold Parse.hex_value. lia.
Qed.

End ReadFacts.

Lemma readmem_roundtrip_witness :
  JLinkRun._readmem
    (JLinkRun.prints ("J-Link>mem16 0080A00E 1" ++ String Text.LF
             ("0080a00e = 3F2A " ++ String Text.LF "J-Link>q")))
    8429582 "mem16"
  = Ok (Parse.hex_value (Fmt.format_X 4 16170))
  /\ Parse.hex_value (Fmt.format_X 4 16170) = 16170%Z.
Proof.
  split.
  - refine (proj1 (@readmem_roundtrip
              (JLinkRun.prints ("J-Link>mem16 0080A00E 1" ++ String Text.LF
                       ("0080a00e = 3F2A " ++ String Text.LF "J-Link>q")))
              8429582 "mem16" _ eq_refl)
            ["J-Link>mem16 0080A00E 1"] ["J-Link>q"]
            "0080a00e = 3F2A " "0080a00e" (Fmt.format_X 4 16170) " "
            _ _ _ _ _ _ _).
    + reflexivity.
    + constructor; [|constructor].
      apply match_register_here_none. reflexivity.
    + reflexivity.
    + reflexivity.
    + reflexivity.
    + discriminate.
    + intros c r E. injection E as <- _. reflexivity.
  - reflexivity.
Defined.

(** C5 fails as stated.  The only line of the first output has no
    hexadecimal value after the address, so the output has no matching
    line, yet the read does not fail with the could-not-find error: it
    raises [ValueError], which is no classified failure.  The second
    output has no such line either, and the read returns 0.  The third
    output contains the line [0080A00E = 3F2A], its only line with a
    hexadecimal value, and the read does not return that value. *)
Lemma readmem_malformed_value :
  let read output := JLinkRun.readmem16 (JLinkRun.prints output) 8429582 in
  read "0080A00E = zz" = Raise ValueError
  /\ Kinds.failure_of (read "0080A00E = zz") = None
  /\ read "0080A00E = -0" = Ok 0%Z
  /\ Lines.split_lf
       ("0080A00E = zz" ++ String Text.LF "0080A00E = 3F2A")%string
     = ["0080A00E = zz"; "0080A00E = 3F2A"]
  /\ Parse.hex_value "3F2A" = 16170%Z
  /\ read ("0080A00E = zz" ++ String Text.LF "0080A00E = 3F2A")%string
     = Raise ValueError.
Proof. repeat split. Qed.

Lemma readmem_value_of_token_witness :
  JLinkRun.readmem (JLinkRun.prints "41002018 = 05") 8 1090527256
  = Ok (Parse.hex_value "05")
  /\ (0 <= Parse.hex_value "05" < 16 ^ Z.of_nat (String.length "05"))%Z.
Proof.
  apply (proj2 (@readmem_value_of_token (JLinkRun.prints "41002018 = 05") 8
                  1090527256 "41002018 = 05" eq_refl));
    reflexivity.
Defined.

(** C9 fails as stated: an 8-bit read of an output with the value [1FF]
    succeeds and returns 511, which is not below [2^8]; and a token with
    a sign gives a negative number. *)
Lemma readmem8_returns_wide_value :
  JLinkRun.readmem8 (JLinkRun.prints "41002018 = 1FF") 1090527256 = Ok 511%Z
  /\ (2 ^ 8 <= 511)%Z
  /\ JLinkRun.readmem8 (JLinkRun.prints "41002018 = -5") 1090527256 = Ok (-5)%Z.
Proof. repeat split. discriminate. Qed.

(** ** The time bound *)

(** C6, as the code has it.  With a finite bound that expires, the call
    fails with a timeout exception and returns no output; the child is
    left running, for nothing in [run_filename] ends it.  When the bound
    does not expire the output is returned.  [None] is the value that
    disables the bound: the call then waits for the tool and returns its
    output.  Zero and negative numbers are bounds like the others, and
    expire at once. *)
Theorem run_filename_timeout (process : Proc.Process) :
  (forall t : Q,
      Proc.expires process (Some t) = true ->
      exists e,
        fst (JLinkRun.run_filename process (Some t)) = Raise e
        /\ Kinds.is_timeout e = true
        /\ snd (JLinkRun.run_filename process (Some t)) = Proc.Running)
  /\ (forall t : Q,
        Proc.expires process (Some t) = false ->
        JLinkRun.run_filename process (Some t)
        = (Ok (Proc.stdout process), Proc.Finished))
  /\ JLinkRun.run_filename process None
     = (Ok (Proc.stdout process), Proc.Finished)
  /\ (forall t : Q,
        (t <= 0)%Q -> (0 < Proc.run_time process)%Q ->
        Proc.expires process (Some t) = true).
Proof.
  unfold JLinkRun.run_filename, Proc.communicate.
  split; [|split; [|split]].
  - intros t H. rewrite H. exists TimeoutExpired. repeat split.
  - intros t H. now rewrite H.
  - reflexivity.
  - intros t Ht Hr. unfold Proc.expires.
    destruct (Qle_bool (Proc.run_time process) t) eqn:E; [|reflexivity].
    apply Qle_bool_iff in E. exfalso.
    apply (Qlt_irrefl 0).
    eapply Qlt_le_trans; [exact Hr|].
    eapply Qle_trans; [exact E | exact Ht].
Qed.

Lemma run_filename_timeout_witness :
  exists e,
    fst (JLinkRun.run_filename
           {| Proc.run_time := (120 # 1)%Q; Proc.stdout := "" |}
           (Some (60 # 1)%Q)) = Raise e
    /\ Kinds.is_timeout e = true
    /\ snd (JLinkRun.run_filename
              {| Proc.run_time := (120 # 1)%Q; Proc.stdout := "" |}
              (Some (60 # 1)%Q)) = Proc.Running.
Proof.
  apply (proj1 (run_filename_timeout
                  {| Proc.run_time := (120 # 1)%Q; Proc.stdout := "" |})
           (60 # 1)%Q).
  reflexivity.
Defined.

(** C6 fails as stated: with a tool that needs 120 s, the default bound
    of 60 s expires and the call raises, yet the child is still running
    when the call is over. *)
Lemma run_filename_leaves_child_running :
  let process := {| Proc.run_time := (120 # 1)%Q; Proc.stdout := "" |} in
  Proc.expires process JLinkRun.default_timeout = true
  /\ fst (JLinkRun.run_filename process JLinkRun.default_timeout)
     = Raise TimeoutExpired
  /\ snd (JLinkRun.run_filename process JLinkRun.default_timeout)
     = Proc.Running.
Proof. repeat split. Qed.

(** ** The entry point *)

(** C7, as the code has it.  When the operation fails with an
    [AdaLinkError], [main] prints its message after whatever was printed
    before, does nothing more and returns: the exit status is 0. *)
Theorem main_prints_error_and_returns (help msg : string) (out : list string) :
  let run := Main.main help (Some (out, Raise (AdaLinkError msg))) in
  Main.printed run = out ++ [msg]
  /\ Main.ending run = Main.Returns
  /\ Main.exit_status run = 0%Z.
Proof. repeat split. Qed.

(** C7 fails as stated: after a failed connection check the exit status
    is 0. *)
Lemma main_exit_status_zero :
  Main.exit_status
    (Main.main "usage"
       (Some ([], Raise (AdaLinkError "Could not find samd21, is it connected?"))))
  = 0%Z
  /\ Main.printed
       (Main.main "usage"
          (Some ([], Raise (AdaLinkError "Could not find samd21, is it connected?"))))
     = ["Could not find samd21, is it connected?"].
Proof. split; reflexivity. Qed.

(** An exception of another class is not caught: it leaves [main] and
    the exit status is 1. *)
Lemma main_other_exception (help : string) (out : list string) (e : Exc) :
  isinstance_AdaLinkError e = false ->
  Main.ending (Main.main help (Some (out, Raise e))) = Main.Propagates e
  /\ Main.exit_status (Main.main help (Some (out, Raise e))) = 1%Z.
Proof.
  intros H. unfold Main.main, try_except, Main.exit_status. simpl.
  rewrite H. split; reflexivity.
Qed.

(** ** Paths in J-Link scripts *)

(** C8 fails on [JLink.program]: the path goes between two quote
    characters as it is.  With a quote in the path, the quoted argument
    of the load command is no longer the path; with line feeds in it,
    the script file gets command lines of its own, here [erase]. *)
Theorem jlink_path_not_escaped :
  let quote_path := ("/fw/a" ++ Text.DQUOTE ++ "b.hex")%string in
  let lines_path :=
    ("/fw/a" ++ String Text.LF ("erase" ++ String Text.LF "b.hex"))%string in
  JLink.program_commands (fun f => f) [quote_path] []
  = ["r";
     ("loadfile " ++ Text.DQUOTE ++ "/fw/a" ++ Text.DQUOTE ++ "b.hex"
      ++ Text.DQUOTE)%string;
     "r"; "g"; "q"]
  /\ JLink.quoted_argument (JLink.loadfile (fun f => f) quote_path)
     = Some "/fw/a"
  /\ Text.splitlines
       (JLink.script_text (JLink.program_commands (fun f => f) [lines_path] []))
     = ["r"; ("loadfile " ++ Text.DQUOTE ++ "/fw/a")%string; "erase";
        ("b.hex" ++ Text.DQUOTE)%string; "r"; "g"; "q"].
Proof. repeat split. Qed.

(** ** The core callback *)

Section CallbackFacts.

Variable World : Type.








Lemma mbind_call_ok (A B : Type) (ev : Core.Event) (op : Core.Op World A)
  (k : A -> Core.M World B) (v : A) s :
  (forall w, fst (op w) = Ok v) ->
  Core.mbind (Core.call ev op) k s
  = k v {| Core.trace := Core.trace s ++ [ev];
           Core.world := snd (op (Core.world s)) |}.
Proof.
  intros H. unfold Core.mbind, Core.call.
  specialize (H (Core.world s)).
  destruct (op (Core.world s)) as [r w]. simpl in H. now subst r.
Qed.


Variable name : string.
Variable create_programmer : string -> Core.Op World (Core.ProgrammerOps World).
Variable info : Core.ProgrammerOps World -> Core.Op World unit.



End CallbackFacts.



(** * Further properties *)

(** ** The sequence of calls of the callback *)

Lemma sorted_app (l1 l2 : list nat) :
  StronglySorted lt l1 -> StronglySorted lt l2 ->
  (forall x y, In x l1 -> In y l2 -> x < y) ->
  StronglySorted lt (l1 ++ l2).
Proof.
  intros H1 H2 H. induction H1 as [|a l1 Hs IH Ha]; simpl; [assumption|].
  constructor.
  - apply IH. intros x y Hx Hy. apply H; [now right | assumption].
  - apply Forall_app. split; [assumption|].
    apply Forall_forall. intros y Hy. apply H; [now left | assumption].
Qed.

Lemma in_order_nil (lo hi : nat) : Calls.in_order lo hi [].
Proof. split; constructor. Qed.

Lemma in_order_single (lo hi : nat) (e : Core.Event) :
  lo <= Calls.phase e < hi -> Calls.in_order lo hi [e].
Proof.
  intros H. split; simpl.
  - repeat constructor.
  - now constructor.
Qed.

Lemma in_order_app (a b c : nat) (l1 l2 : list Core.Event) :
  a <= b -> b <= c ->
  Calls.in_order a b l1 -> Calls.in_order b c l2 ->
  Calls.in_order a c (l1 ++ l2).
Proof.
  intros Hab Hbc [S1 F1] [S2 F2]. split.
  - rewrite map_app. apply sorted_app; try assumption.
    intros x y Hx Hy.
    apply in_map_iff in Hx as [e1 [<- He1]].
    apply in_map_iff in Hy as [e2 [<- He2]].
    rewrite Forall_forall in F1, F2.
    specialize (F1 e1 He1). specialize (F2 e2 He2). lia.
  - apply Forall_app. split.
    + eapply Forall_impl; [|exact F1]. simpl. intros e He. lia.
    + eapply Forall_impl; [|exact F2]. simpl. intros e He. lia.
Qed.

Section OrderFacts.

Variable World : Type.

Lemma within_weaken (A : Type) (lo hi lo' hi' : nat) (m : Core.M World A) :
  lo' <= lo -> hi <= hi' ->
  Calls.within lo hi m -> Calls.within lo' hi' m.
Proof.
  intros Hlo Hhi H s. destruct (H s) as [events [T [S F]]].
  exists events. split; [assumption|]. split; [assumption|].
  eapply Forall_impl; [|exact F]. simpl. intros e He. lia.
Qed.

Lemma within_ret (A : Type) (lo hi : nat) (v : A) :
  Calls.within lo hi (Core.ret (World := World) v).
Proof.
  intros s. exists []. simpl. rewrite app_nil_r.
  split; [reflexivity | apply in_order_nil].
Qed.

Lemma within_raise (A : Type) (lo hi : nat) (e : Exc) :
  Calls.within lo hi (Core.raise (World := World) (A := A) e).
Proof.
  intros s. exists []. simpl. rewrite app_nil_r.
  split; [reflexivity | apply in_order_nil].
Qed.

Lemma within_lift (A : Type) (lo hi : nat) (op : Core.Op World A) :
  Calls.within lo hi (Core.lift op).
Proof.
  intros s. exists []. unfold Core.lift.
  destruct (op (Core.world s)). simpl. rewrite app_nil_r.
  split; [reflexivity | apply in_order_nil].
Qed.

Lemma within_call (A : Type) (ev : Core.Event) (op : Core.Op World A) :
  Calls.within (Calls.phase ev) (S (Calls.phase ev)) (Core.call ev op).
Proof.
  intros s. exists [ev]. unfold Core.call.
  destruct (op (Core.world s)). simpl.
  split; [reflexivity | apply in_order_single; lia].
Qed.

Lemma within_print (line : string) :
  Calls.within 5 6 (Core.print (World := World) line).
Proof.
  intros s. exists [Core.EvPrint line]. simpl.
  split; [reflexivity | apply in_order_single; simpl; lia].
Qed.

Lemma within_bind (A B : Type) (a b c : nat)
  (m : Core.M World A) (k : A -> Core.M World B) :
  a <= b -> b <= c ->
  Calls.within a b m -> (forall v, Calls.within b c (k v)) ->
  Calls.within a c (Core.mbind m k).
Proof.
  intros Hab Hbc Hm Hk s. unfold Core.mbind.
  destruct (Hm s) as [ev1 [T1 O1]].
  destruct (m s) as [[v|e] s']; simpl in T1.
  - destruct (Hk v s') as [ev2 [T2 O2]].
    exists (ev1 ++ ev2). rewrite T2, T1, <- app_assoc.
    split; [reflexivity | now apply (in_order_app Hab Hbc)].
  - exists ev1. simpl. split; [assumption|].
    rewrite <- (app_nil_r ev1).
    apply (in_order_app Hab Hbc); [assumption | apply in_order_nil].
Qed.

Lemma only_ret (A : Type) (P : Core.Event -> Prop) (v : A) :
  Calls.only P (Core.ret (World := World) v).
Proof. intros s. exists []. simpl. now rewrite app_nil_r. Qed.

Lemma only_raise (A : Type) (P : Core.Event -> Prop) (e : Exc) :
  Calls.only P (Core.raise (World := World) (A := A) e).
Proof. intros s. exists []. simpl. now rewrite app_nil_r. Qed.

Lemma only_lift (A : Type) (P : Core.Event -> Prop) (op : Core.Op World A) :
  Calls.only P (Core.lift op).
Proof.
  intros s. exists []. unfold Core.lift.
  destruct (op (Core.world s)). simpl. now rewrite app_nil_r.
Qed.

Lemma only_call (A : Type) (P : Core.Event -> Prop) (ev : Core.Event)
  (op : Core.Op World A) :
  P ev -> Calls.only P (Core.call ev op).
Proof.
  intros H s. exists [ev]. unfold Core.call.
  destruct (op (Core.world s)). simpl. split; [reflexivity | now constructor].
Qed.

Lemma only_print (P : Core.Event -> Prop) (line : string) :
  P (Core.EvPrint line) -> Calls.only P (Core.print (World := World) line).
Proof.
  intros H s. exists [Core.EvPrint line]. simpl.
  split; [reflexivity | now constructor].
Qed.

Lemma only_bind (A B : Type) (P : Core.Event -> Prop)
  (m : Core.M World A) (k : A -> Core.M World B) :
  Calls.only P m -> (forall v, Calls.only P (k v)) ->
  Calls.only P (Core.mbind m k).
Proof.
  intros Hm Hk s. unfold Core.mbind.
  destruct (Hm s) as [ev1 [T1 F1]].
  destruct (m s) as [[v|e] s']; simpl in T1.
  - destruct (Hk v s') as [ev2 [T2 F2]].
    exists (ev1 ++ ev2). rewrite T2, T1, <- app_assoc.
    split; [reflexivity | apply Forall_app; now split].
  - exists ev1. simpl. now split.
Qed.

Lemma within_read_and_print (width : nat) (read : Z -> Core.Op World Z)
  (address : option Z) :
  Calls.within 4 6 (Core.read_and_print width read address).
Proof.
  destruct address as [a|]; simpl; [|apply within_ret].
  apply (@within_bind _ _ 4 5 6); try lia.
  - apply (within_call (Core.EvRead width a)).
  - intros v. apply within_print.
Qed.

Lemma only_read_and_print (P : Core.Event -> Prop) (width : nat)
  (read : Z -> Core.Op World Z) (address : option Z) :
  (forall a, P (Core.EvRead width a)) -> (forall l, P (Core.EvPrint l)) ->
  Calls.only P (Core.read_and_print width read address).
Proof.
  intros Hr Hp. destruct address as [a|]; simpl; [|apply only_ret].
  apply only_bind; [now apply only_call | intros v; now apply only_print].
Qed.

End OrderFacts.

Section CallbackOrder.

Variable World : Type.
Variable name : string.
Variable create_programmer : string -> Core.Op World (Core.ProgrammerOps World).
Variable info : Core.ProgrammerOps World -> Core.Op World unit.

Lemma callback_within (args : Core.Args) :
  Calls.within 0 6 (Core._callback name create_programmer info args).
Proof.
  unfold Core._callback.
  apply (@within_bind _ _ _ 0 0 6); [lia | lia | apply within_lift |].
  intros programmer.
  apply (@within_bind _ _ _ 0 1 6);
    [lia | lia | apply (within_call Core.EvConnect) |].
  intros is_conn. destruct (negb is_conn); [apply within_raise|].
  apply (@within_bind _ _ _ 1 2 6); [lia | lia | |].
  { destruct (Core.arg_wipe args);
      [apply (within_call Core.EvWipe) | apply within_ret]. }
  intros _.
  apply (@within_bind _ _ _ 2 3 6); [lia | lia | |].
  { match goal with
    | |- Calls.within _ _ (if ?b then _ else _) => destruct b
    end; [apply (within_call (Core.EvProgram _ _)) | apply within_ret]. }
  intros _.
  apply (@within_bind _ _ _ 3 4 6); [lia | lia | |].
  { destruct (Core.arg_info args);
      [apply (within_call Core.EvInfo) | apply within_ret]. }
  intros _. unfold Core.requested_reads.
  destruct (Core.arg_read_mem_8 args) as [a8|],
           (Core.arg_read_mem_16 args) as [a16|],
           (Core.arg_read_mem_32 args) as [a32|];
    cbn [filter Core.is_not_None List.length Nat.ltb Nat.leb];
    try apply within_raise.
  - apply (@within_bind _ _ _ 4 6 6); [lia | lia | |].
    { apply within_read_and_print. }
    intros _. apply (@within_bind _ _ _ 6 6 6); [lia | lia | |];
      [apply within_ret | intros _; apply within_ret].
  - apply (@within_bind _ _ _ 4 4 6); [lia | lia | apply within_ret |].
    intros _. apply (@within_bind _ _ _ 4 6 6); [lia | lia | |];
      [apply within_read_and_print | intros _; apply within_ret].
  - apply (@within_bind _ _ _ 4 4 6); [lia | lia | apply within_ret |].
    intros _. apply (@within_bind _ _ _ 4 4 6); [lia | lia | apply within_ret |].
    intros _. apply within_read_and_print.
  - apply (@within_bind _ _ _ 4 4 6); [lia | lia | apply within_ret |].
    intros _. apply (@within_bind _ _ _ 4 4 6); [lia | lia | apply within_ret |].
    intros _. apply within_ret.
Qed.

Lemma callback_only_programs_request (args : Core.Args) :
  Calls.only (Calls.programs_request args)
    (Core._callback name create_programmer info args).
Proof.
  unfold Core._callback.
  apply only_bind; [apply only_lift | intros programmer].
  apply only_bind; [now apply only_call | intros is_conn].
  destruct (negb is_conn); [apply only_raise|].
  apply only_bind;
    [destruct (Core.arg_wipe args); [now apply only_call | apply only_ret]
    | intros _].
  apply only_bind.
  { fold (Calls.program_hex args). fold (Calls.program_bin args).
    fold (Calls.has_files args).
    destruct (Calls.has_files args) eqn:E; [|apply only_ret].
    apply only_call. simpl. now rewrite E. }
  intros _.
  apply only_bind;
    [destruct (Core.arg_info args); [now apply only_call | apply only_ret]
    | intros _].
  match goal with
  | |- Calls.only _ (if ?b then _ else _) => destruct b
  end; [apply only_raise|].
  repeat (apply only_bind; [now apply only_read_and_print | intros _]).
  now apply only_read_and_print.
Qed.

(** Whatever the programmer and the options, the calls of [_callback]
    come in the order connection check, wipe, programming, info report,
    read, printing of the value, and none of them is made twice; and
    [program] is only called with the files of the request, of which
    there is then at least one. *)
Theorem callback_calls_in_order (args : Core.Args) (w : World) :
  let events :=
    Core.trace
      (snd (Core._callback name create_programmer info args (Calls.start w))) in
  Calls.in_order 0 6 events
  /\ Forall (Calls.programs_request args) events.
Proof.
  intros events. subst events.
  destruct (callback_within args (Calls.start w)) as [ev1 [T1 O1]].
  destruct (callback_only_programs_request args (Calls.start w))
    as [ev2 [T2 F2]].
  simpl in T1, T2. rewrite T1 at 1. rewrite T2. split; assumption.
Qed.

End CallbackOrder.

Section CallbackRuns.

Variable World : Type.
Variable name : string.
Variable create_programmer : string -> Core.Op World (Core.ProgrammerOps World).
Variable info : Core.ProgrammerOps World -> Core.Op World unit.

Lemma mbind_call (A B : Type) (ev : Core.Event) (op : Core.Op World A)
  (k : A -> Core.M World B) (s : Core.State World) :
  Core.mbind (Core.call ev op) k s
  = match fst (op (Core.world s)) with
    | Ok v =>
        k v {| Core.trace := Core.trace s ++ [ev];
               Core.world := snd (op (Core.world s)) |}
    | Raise e =>
        (Raise e, {| Core.trace := Core.trace s ++ [ev];
                     Core.world := snd (op (Core.world s)) |})
    end.
Proof.
  unfold Core.mbind, Core.call.
  destruct (op (Core.world s)) as [[v|e] w]; reflexivity.
Qed.

(** When the connection check does not answer [True], it is the only
    call made: nothing is wiped, programmed or read, the world is as the
    check left it, and the error is the one of the check or, when it
    answered [False], the could-not-find error naming the core. *)
Theorem callback_not_connected (args : Core.Args)
  (p : Core.ProgrammerOps World) (w w1 : World) :
  create_programmer (Core.arg_programmer args) w = (Ok p, w1) ->
  fst (Core.is_connected p w1) <> Ok true ->
  let run := Core._callback name create_programmer info args (Calls.start w) in
  Core.trace (snd run) = [Core.EvConnect]
  /\ Core.world (snd run) = snd (Core.is_connected p w1)
  /\ fst run
     = match fst (Core.is_connected p w1) with
       | Raise e => Raise e
       | Ok _ => Raise (AdaLinkError (Core.msg_not_found name))
       end.
Proof.
  intros Hcreate Hconn run.
  assert (E : run
              = (match fst (Core.is_connected p w1) with
                 | Raise e => Raise e
                 | Ok _ => Raise (AdaLinkError (Core.msg_not_found name))
                 end,
                 {| Core.trace := [Core.EvConnect];
                    Core.world := snd (Core.is_connected p w1) |})).
  { subst run. unfold Core._callback.
    unfold Core.mbind at 1. unfold Core.lift, Calls.start.
    cbn [Core.world Core.trace]. rewrite Hcreate.
    rewrite mbind_call. cbn [Core.world Core.trace app].
    destruct (Core.is_connected p w1) as [[[|]|e] w2]; cbn [fst snd] in *.
    - exfalso. now apply Hconn.
    - reflexivity.
    - reflexivity. }
  rewrite E. repeat split.
Qed.


Lemma mbind_eq (A B : Type) (m : Core.M World A) (k : A -> Core.M World B)
  (s s1 : Core.State World) (v : A) :
  m s = (Ok v, s1) -> Core.mbind m k s = k v s1.
Proof. intros H. unfold Core.mbind. now rewrite H. Qed.




End CallbackRuns.

Lemma callback_not_connected_witness :
  let args :=
    {| Core.arg_programmer := "jlink"; Core.arg_wipe := true;
       Core.arg_info := true; Core.arg_program_hex := Some ["/fw/img_a.hex"];
       Core.arg_program_bin := None; Core.arg_read_mem_8 := Some 0%Z;
       Core.arg_read_mem_16 := None; Core.arg_read_mem_32 := None |} in
  let run :=
    Core._callback "samd21"
      (fun _ w => (Ok (Calls.unplugged unit), w)) (fun _ w => (Ok tt, w))
      args (Calls.start tt) in
  Core.trace (snd run) = [Core.EvConnect]
  /\ Core.world (snd run) = tt
  /\ fst run = Raise (AdaLinkError (Core.msg_not_found "samd21")).
Proof.
  refine (@callback_not_connected unit "samd21"
            (fun _ w => (Ok (Calls.unplugged unit), w))
            (fun _ w => (Ok tt, w)) _ (Calls.unplugged unit) tt tt _ _).
  - reflexivity.
  - simpl. discriminate.
Defined.


(** ** The script file *)

Section LinesFacts.

Lemma count_lf_no_lf (s : string) :
  Lines.count_lf s = 0 <-> Parse.no_lf s = true.
Proof.
  induction s as [|c s IH]; simpl; [tauto|].
  destruct (Ascii.eqb c Text.LF); simpl; [split; [lia | discriminate]|].
  exact IH.
Qed.

Lemma count_lf_app (a b : string) :
  Lines.count_lf (a ++ b) = Lines.count_lf a + Lines.count_lf b.
Proof. induction a as [|c a IH]; simpl; [reflexivity | rewrite IH; lia]. Qed.

Lemma split_lf_from_length (s cur : string) :
  List.length (Lines.split_lf_from cur s) = S (Lines.count_lf s).
Proof.
  revert cur. induction s as [|c s IH]; intros cur; simpl; [reflexivity|].
  destruct (Ascii.eqb c Text.LF); simpl; now rewrite IH.
Qed.

Lemma split_lf_from_app (s rest cur : string) :
  Parse.no_lf s = true ->
  Lines.split_lf_from cur (s ++ rest) = Lines.split_lf_from (cur ++ s) rest.
Proof.
  revert cur. induction s as [|c s IH]; intros cur H; simpl.
  - now rewrite string_app_nil_r.
  - simpl in H. apply andb_prop in H as [Hc Hs].
    apply negb_true_iff in Hc. rewrite Hc, IH by assumption.
    now rewrite string_app_assoc.
Qed.

(** The total of line feeds in the commands of a script. *)
Lemma count_lf_join (x : string) (xs : list string) :
  Lines.count_lf (Text.join_lines (x :: xs))
  = List.length xs
    + fold_right (fun c n => Lines.count_lf c + n) 0 (x :: xs).
Proof.
  revert x. induction xs as [|y ys IH]; intros x.
  - change (Text.join_lines [x]) with x. simpl. lia.
  - change (Text.join_lines (x :: y :: ys))
      with (x ++ String Text.LF (Text.join_lines (y :: ys)))%string.
    rewrite count_lf_app. cbn [Lines.count_lf].
    change (Ascii.eqb Text.LF Text.LF) with true. cbv iota.
    rewrite IH. simpl. lia.
Qed.

Lemma split_lf_from_join (x : string) (xs : list string) (cur : string) :
  Parse.no_lf x = true -> Forall (fun c => Parse.no_lf c = true) xs ->
  Lines.split_lf_from cur (Text.join_lines (x :: xs)) = (cur ++ x)%string :: xs.
Proof.
  revert x cur. induction xs as [|y ys IH]; intros x cur Hx Hxs.
  - change (Text.join_lines [x]) with x.
    rewrite <- (string_app_nil_r x) at 1.
    now rewrite split_lf_from_app.
  - change (Text.join_lines (x :: y :: ys))
      with (x ++ String Text.LF (Text.join_lines (y :: ys)))%string.
    rewrite split_lf_from_app by assumption.
    cbn [Lines.split_lf_from].
    change (Ascii.eqb Text.LF Text.LF) with true. cbv iota.
    inversion Hxs; subst. now rewrite IH.
Qed.

Lemma fold_count_zero (l : list string) :
  fold_right (fun c n => Lines.count_lf c + n) 0 l = 0 ->
  Forall (fun c => Parse.no_lf c = true) l.
Proof.
  induction l as [|x l IH]; simpl; intros H; constructor.
  - apply count_lf_no_lf. lia.
  - apply IH. lia.
Qed.

Lemma split_lf_join_iff (commands : list string) :
  commands <> [] ->
  (Lines.split_lf (Text.join_lines commands) = commands
   <-> Forall (fun c => Parse.no_lf c = true) commands).
Proof.
  intros Hne. destruct commands as [|x xs]; [congruence|].
  unfold Lines.split_lf. split.
  - intros E. apply (f_equal (@List.length string)) in E.
    rewrite split_lf_from_length, count_lf_join in E.
    apply fold_count_zero. simpl in *. lia.
  - intros F. inversion F; subst.
    now rewrite split_lf_from_join.
Qed.

(** The script file that [run_commands] writes has one line for each
    command, the commands themselves, exactly when no command contains a
    line feed. *)
Theorem script_lines_are_commands (commands : Script) :
  commands <> [] ->
  (Lines.split_lf (JLink.script_text commands) = commands
   <-> Forall (fun c => Parse.no_lf c = true) commands).
Proof. intros Hne. unfold JLink.script_text. now apply split_lf_join_iff. Qed.

Section ProgramLines.

Variable abspath : string -> string.

Lemma no_lf_loadfile (f : string) :
  Parse.no_lf (JLink.loadfile abspath f) = Parse.no_lf (abspath f).
Proof.
  unfold JLink.loadfile. rewrite !no_lf_app. simpl.
  now rewrite andb_true_r.
Qed.

Lemma no_lf_format_08X (n : Z) : Parse.no_lf (Fmt.format_08X n) = true.
Proof.
  pose proof (format_08X_no_lf n) as H. rewrite no_lf_app in H.
  now apply andb_prop in H as [H _].
Qed.

Lemma no_lf_loadbin (fa : string * Z) :
  Parse.no_lf (JLink.loadbin abspath fa) = Parse.no_lf (abspath (fst fa)).
Proof.
  unfold JLink.loadbin. rewrite !no_lf_app, no_lf_format_08X. simpl.
  now rewrite !andb_true_r.
Qed.

(** The script of [JLink.program] has one line for each command exactly
    when no path, made absolute, contains a line feed. *)
Theorem jlink_program_script_lines (hex_files : HexFiles) (bin_files : BinFiles) :
  let commands := JLink.program_commands abspath hex_files bin_files in
  Lines.split_lf (JLink.script_text commands) = commands
  <-> (Forall (fun f => Parse.no_lf (abspath f) = true) hex_files
       /\ Forall (fun fa => Parse.no_lf (abspath (fst fa)) = true) bin_files).
Proof.
  intros commands.
  assert (Hne : commands <> []).
  { subst commands. rewrite jlink_program_commands_eq. discriminate. }
  unfold JLink.script_text. rewrite (split_lf_join_iff Hne). subst commands.
  rewrite jlink_program_commands_eq.
  rewrite !Forall_app, !Forall_map.
  split.
  - intros (_ & Hh & Hb & _). split.
    + eapply Forall_impl; [|exact Hh]. intros f. cbv beta. now rewrite no_lf_loadfile.
    + eapply Forall_impl; [|exact Hb]. intros fa. cbv beta. now rewrite no_lf_loadbin.
  - intros [Hh Hb]. repeat split.
    + repeat constructor.
    + eapply Forall_impl; [|exact Hh]. intros f. cbv beta. now rewrite no_lf_loadfile.
    + eapply Forall_impl; [|exact Hb]. intros fa. cbv beta. now rewrite no_lf_loadbin.
    + repeat constructor.
Qed.

End ProgramLines.

End LinesFacts.

Lemma script_lines_are_commands_witness :
  Lines.split_lf (JLink.script_text ["connect"; "q"]) = ["connect"; "q"]
  <-> Forall (fun c => Parse.no_lf c = true) ["connect"; "q"].
Proof.
  apply (@script_lines_are_commands ["connect"; "q"]). discriminate.
Defined.

(** ** Addresses as text *)

Section AddressFacts.

Local Open Scope Z_scope.

Lemma strip_0x_all_hex (s : string) :
  Parse.all_hex s = true -> Parse.strip_0x s = s.
Proof.
  intros H. unfold Parse.strip_0x.
  destruct s as [|z [|x r]]; try reflexivity.
  simpl in H. apply andb_prop in H as [_ H]. apply andb_prop in H as [Hx _].
  destruct (is_hex_excludes x Hx) as (_ & _ & _ & -> & -> & _).
  now rewrite andb_false_r.
Qed.

Lemma py_int16_minus (s : string) :
  Parse.all_hex s = true -> s <> EmptyString ->
  Parse.py_int16 (String "-" s) = Some (- Parse.hex_value s).
Proof.
  intros Hs Hne. unfold Parse.py_int16.
  change (Parse.strip_sign (String "-" s)) with (true, s).
  cbv beta iota. rewrite strip_0x_all_hex by assumption.
  destruct s as [|c r]; [congruence|].
  pose proof Hs as Hs'. simpl in Hs'. apply andb_prop in Hs' as [Hc _].
  destruct (is_hex_excludes c Hc) as (_ & _ & -> & _).
  now rewrite digits_loop_all_hex.
Qed.

Lemma hex_digits_value (k : nat) (n : Z) :
  0 <= n -> (Fmt.hex_len n <= k)%nat ->
  Parse.all_hex (Fmt.hex_digits k n) = true
  /\ Fmt.hex_digits k n <> EmptyString
  /\ Parse.hex_value (Fmt.hex_digits k n) = n.
Proof.
  intros Hn Hk. repeat split.
  - apply hex_digits_all_hex.
  - intros E. apply (f_equal String.length) in E.
    rewrite hex_digits_length in E. simpl in E.
    unfold Fmt.hex_len in Hk. lia.
  - unfold Parse.hex_value. rewrite hex_value_from_digits by assumption.
    rewrite Z.mod_small; [lia|]. split; [assumption|].
    eapply Z.lt_le_trans; [apply hex_len_bound; assumption|].
    apply Z.pow_le_mono_r; lia.
Qed.

Lemma hex_len_small (n : Z) : 0 <= n < 2 ^ 32 -> (Fmt.hex_len n <= 8)%nat.
Proof.
  intros [Hn Hlt]. unfold Fmt.hex_len.
  destruct (Z.eq_dec n 0) as [-> | Hnz]; [simpl; lia|].
  assert (Z.log2 n < 32) by (apply Z.log2_lt_pow2; lia).
  assert (0 <= Z.log2 n) by apply Z.log2_nonneg.
  assert (Z.log2 n / 4 < 8) by (apply Z.div_lt_upper_bound; lia).
  assert (0 <= Z.log2 n / 4) by (apply Z.div_pos; lia).
  lia.
Qed.

(** What [int(_, 16)] reads from a number formatted in hexadecimal, with
    any padding, is the number: the text of an address tells the
    address, negative and oversized ones included.  An address of 32
    bits takes exactly 8 characters. *)
Theorem format_then_parse (w : nat) (n : Z) :
  Parse.py_int16 (Fmt.format_X w n) = Some n
  /\ (0 <= n < 2 ^ 32 -> String.length (Fmt.format_08X n) = 8%nat).
Proof.
  split.
  - unfold Fmt.format_X. destruct (Z.ltb_spec n 0) as [Hneg | Hpos].
    + assert (Hk : (Fmt.hex_len (- n)
                    <= Nat.max (w - 1) (Fmt.hex_len (- n)))%nat) by lia.
      destruct (@hex_digits_value _ (- n) ltac:(lia) Hk) as (Hh & Hne & Hv).
      change ("-" ++ Fmt.hex_digits (Nat.max (w - 1) (Fmt.hex_len (- n))) (- n))%string
        with (String "-" (Fmt.hex_digits (Nat.max (w - 1) (Fmt.hex_len (- n))) (- n))).
      rewrite py_int16_minus by assumption. rewrite Hv. f_equal. lia.
    + assert (Hk : (Fmt.hex_len n <= Nat.max w (Fmt.hex_len n))%nat) by lia.
      destruct (@hex_digits_value _ n Hpos Hk) as (Hh & Hne & Hv).
      rewrite py_int16_all_hex by assumption. now rewrite Hv.
  - intros H. unfold Fmt.format_08X, Fmt.format_X.
    destruct (Z.ltb_spec n 0) as [|_]; [lia|].
    rewrite hex_digits_length. pose proof (hex_len_small H). lia.
Qed.

End AddressFacts.

(** ** The info report *)

Section InfoFacts.

Variable World : Type.
Variable p : Core.ProgrammerOps World.

Lemma read_registers_ok (m16 : Z -> Z) (addresses : list Z)
  (s : Core.State World) :
  (forall a w', fst (Core.readmem16 p a w') = Ok (m16 a)) ->
  exists s1,
    Cores.read_registers p addresses s = (Ok (map m16 addresses), s1)
    /\ Core.trace s1 = Core.trace s ++ map (Core.EvRead 16) addresses.
Proof.
  intros H16. revert s. induction addresses as [|a rest IH]; intros s.
  - exists s. split; [reflexivity | now rewrite app_nil_r].
  - cbn [Cores.read_registers].
    rewrite (@mbind_call_ok World _ _ _ _ _ _ _ (H16 a)).
    cbv beta.
    destruct (IH {| Core.trace := Core.trace s ++ [Core.EvRead 16 a];
                    Core.world := snd (Core.readmem16 p a (Core.world s)) |})
      as [s1 [E T]].
    exists s1. rewrite (@mbind_eq World _ _ _ _ _ _ _ E). split.
    + reflexivity.
    + rewrite T. cbn [Core.trace map]. now rewrite <- app_assoc.
Qed.

Lemma printed_lines_app (l1 l2 : list Core.Event) :
  Cores.printed_lines (l1 ++ l2)
  = Cores.printed_lines l1 ++ Cores.printed_lines l2.
Proof. unfold Cores.printed_lines. apply flat_map_app. Qed.

Lemma printed_lines_reads (l : list Z) :
  Cores.printed_lines (map (Core.EvRead 16) l) = [].
Proof. induction l as [|a l IH]; [reflexivity | exact IH]. Qed.


Lemma read_registers_fail (r16 : Z -> Result Z) (before after : list Z)
  (a : Z) (e : Exc) :
  (forall b w', fst (Core.readmem16 p b w') = r16 b) ->
  r16 a = Raise e ->
  forall (values : list Z) (s : Core.State World),
    map r16 before = map (@Ok Z) values ->
    Cores.read_registers p (before ++ a :: after) s
    = (Raise e,
       {| Core.trace := Core.trace s ++ map (Core.EvRead 16) (before ++ [a]);
          Core.world :=
            fold_left (fun w' b => snd (Core.readmem16 p b w'))
              (before ++ [a]) (Core.world s) |}).
Proof.
  intros H16 Ha. induction before as [|b before IH]; intros values s Hv.
  - cbn [app Cores.read_registers]. rewrite (@mbind_call World).
    rewrite H16, Ha. reflexivity.
  - destruct values as [|v values]; [discriminate Hv|].
    cbn [map] in Hv. injection Hv as Hb Hv.
    cbn [app Cores.read_registers]. rewrite (@mbind_call World).
    rewrite H16, Hb. unfold Core.mbind at 1.
    rewrite (IH values _ Hv). cbn [Core.trace Core.world map fold_left].
    now rewrite <- app_assoc.
Qed.

(** [info] stops at the first read that raises.  When the read of one
    of the registers of the serial number raises, those before it
    having succeeded, that exception leaves [info]; the reads made are
    those of the registers up to that one, in their order, each in the
    world the one before it left; no later register is read and
    nothing is printed. *)
Theorem info_stops_at_failed_read (r16 : Z -> Result Z)
  (before after values : list Z) (a : Z) (e : Exc) (w : World) :
  (forall b w', fst (Core.readmem16 p b w') = r16 b) ->
  Cores.serial_registers = before ++ a :: after ->
  map r16 before = map (@Ok Z) values ->
  r16 a = Raise e ->
  let run := Cores.info p (Calls.start w) in
  run
  = (Raise e,
     {| Core.trace := map (Core.EvRead 16) (before ++ [a]);
        Core.world :=
          fold_left (fun w' b => snd (Core.readmem16 p b w'))
            (before ++ [a]) w |})
  /\ Cores.printed_lines (Core.trace (snd run)) = [].
Proof.
  intros H16 Hsplit Hv Ha run.
  assert (E : run
              = (Raise e,
                 {| Core.trace := map (Core.EvRead 16) (before ++ [a]);
                    Core.world :=
                      fold_left (fun w' b => snd (Core.readmem16 p b w'))
                        (before ++ [a]) w |})).
  { subst run. unfold Cores.info. rewrite Hsplit.
    unfold Core.mbind at 1.
    now rewrite (@read_registers_fail r16 before after a e H16 Ha values
                   (Calls.start w) Hv). }
  split; [exact E|]. rewrite E. cbn [snd Core.trace].
  apply printed_lines_reads.
Qed.

(** When the eight reads of the serial number succeed and the read of
    the device selection register raises, that exception leaves [info]
    after the line of the serial number has been printed: the line of
    the device is not. *)
Theorem info_device_read_fails (m16 : Z -> Z) (e : Exc) (w : World) :
  (forall a w', fst (Core.readmem16 p a w') = Ok (m16 a)) ->
  (forall w', fst (Core.readmem8 p Cores.DEVSEL_ADDRESS w') = Raise e) ->
  let run := Cores.info p (Calls.start w) in
  fst run = Raise e
  /\ Core.trace (snd run)
     = map (Core.EvRead 16) Cores.serial_registers
       ++ [Core.EvPrint
             (Cores.serial_line (map m16 Cores.serial_registers));
           Core.EvRead 8 Cores.DEVSEL_ADDRESS]
  /\ Cores.printed_lines (Core.trace (snd run))
     = [Cores.serial_line (map m16 Cores.serial_registers)].
Proof.
  intros H16 H8 run.
  destruct (@read_registers_ok m16 Cores.serial_registers (Calls.start w) H16)
    as [s1 [E T]].
  assert (R : run
              = (Raise e,
                 {| Core.trace :=
                      (Core.trace s1
                       ++ [Core.EvPrint
                             (Cores.serial_line
                                (map m16 Cores.serial_registers))])
                      ++ [Core.EvRead 8 Cores.DEVSEL_ADDRESS];
                    Core.world :=
                      snd (Core.readmem8 p Cores.DEVSEL_ADDRESS
                             (Core.world s1)) |})).
  { subst run. unfold Cores.info.
    rewrite (@mbind_eq World _ _ _ _ _ _ _ E).
    unfold Core.mbind at 1. unfold Core.print at 1. cbn [fst snd].
    rewrite (@mbind_call World). cbn [Core.world Core.trace].
    now rewrite H8. }
  rewrite R. cbn [fst snd Core.trace]. rewrite T.
  unfold Calls.start. cbn [Core.trace app].
  split; [reflexivity|]. split; [now rewrite <- app_assoc|].
  rewrite !printed_lines_app, printed_lines_reads. reflexivity.
Qed.

End InfoFacts.

Lemma info_stops_at_failed_read_witness :
  let p := Calls.failing_on "readmem16" (Z.eqb 8429634) in
  let run := Cores.info p (Calls.start []) in
  run
  = (Raise (AdaLinkError JLinkRun.msg_no_value),
     {| Core.trace :=
          [Core.EvRead 16 8429582; Core.EvRead 16 8429580;
           Core.EvRead 16 8429634];
        Core.world := ["readmem16"; "readmem16"; "readmem16"] |})
  /\ Cores.printed_lines (Core.trace (snd run)) = [].
Proof.
  intros p.
  apply (@info_stops_at_failed_read (list string) p
           (fun b => if (8429634 =? b)%Z
                     then Raise (AdaLinkError JLinkRun.msg_no_value)
                     else Ok 0%Z)
           [8429582; 8429580]%Z
           [8429632; 8429638; 8429636; 8429642; 8429640]%Z
           [0; 0]%Z 8429634%Z (AdaLinkError JLinkRun.msg_no_value) []);
    intros; reflexivity.
Defined.

Lemma info_device_read_fails_witness :
  let p := Calls.failing_on "readmem8" (fun _ => true) in
  let run := Cores.info p (Calls.start []) in
  fst run = Raise (AdaLinkError JLinkRun.msg_no_value)
  /\ Core.trace (snd run)
     = map (Core.EvRead 16) Cores.serial_registers
       ++ [Core.EvPrint
             (Cores.serial_line
                (map (fun _ => 0%Z) Cores.serial_registers));
           Core.EvRead 8 Cores.DEVSEL_ADDRESS]
  /\ Cores.printed_lines (Core.trace (snd run))
     = [Cores.serial_line (map (fun _ => 0%Z) Cores.serial_registers)].
Proof.
  intros p.
  apply (@info_device_read_fails (list string) p (fun _ => 0%Z)
           (AdaLinkError JLinkRun.msg_no_value) []);
    intros; reflexivity.
Defined.


(** The name of a device is [Reserved] exactly for the codes that are
    not in the table, and two codes of the table never share a name. *)
Theorem chip_name_lookup :
  let codes := map fst Cores.DEVSEL_CHIPNAME_LOOKUP in
  (forall code, Cores.chip_name code = "Reserved" <-> ~ In code codes)
  /\ (forall a b,
        In a codes -> In b codes ->
        Cores.chip_name a = Cores.chip_name b -> a = b).
Proof.
  intros codes. subst codes. split.
  - intros code. unfold Cores.chip_name, Cores.DEVSEL_CHIPNAME_LOOKUP.
    cbn [Cores.dict_get map fst In].
    repeat match goal with
           | |- context [Z.eqb ?k code] => destruct (Z.eqb_spec k code)
           end;
      split; intros H; try discriminate H; try reflexivity;
      try (exfalso; apply H; tauto);
      intuition congruence.
  - intros a b Ha Hb. cbn [Cores.DEVSEL_CHIPNAME_LOOKUP map fst In] in Ha, Hb.
    repeat (destruct Ha as [<- | Ha]; [|]); try contradiction;
      repeat (destruct Hb as [<- | Hb]; [|]); try contradiction;
      vm_compute; intros E; try reflexivity; discriminate E.
Qed.

(** ** The arguments of JLinkExe and the programmers of the cores *)

Section WordFacts.

Lemma no_space_app (a b : string) :
  Lines.no_space (a ++ b) = Lines.no_space a && Lines.no_space b.
Proof.
  induction a as [|c a IH]; simpl; [reflexivity|].
  rewrite IH. now rewrite andb_assoc.
Qed.

Lemma split_ws_from_word (t : string) :
  forall cur pending rest,
    Lines.no_space t = true ->
    Lines.split_ws_from cur pending (t ++ rest)
    = Lines.split_ws_from (cur ++ t)
        (pending || match t with EmptyString => false | _ => true end) rest.
Proof.
  induction t as [|c t IH]; intros cur pending rest H.
  - simpl. now rewrite string_app_nil_r, orb_false_r.
  - simpl in H. apply andb_prop in H. destruct H as [Hc Ht].
    unfold Text.nonspace in Hc. apply negb_true_iff in Hc.
    cbn [append Lines.split_ws_from]. rewrite Hc.
    rewrite (IH _ _ _ Ht). rewrite orb_true_r. cbn [orb].
    rewrite string_app_assoc. reflexivity.
Qed.

Lemma split_ws_from_words (s : string) :
  forall cur pending,
    Lines.no_space cur = true ->
    (pending = true -> cur <> EmptyString) ->
    Forall (fun t => Lines.is_word t = true)
      (Lines.split_ws_from cur pending s).
Proof.
  assert (W : forall cur, Lines.no_space cur = true -> cur <> EmptyString ->
                          Lines.is_word cur = true).
  { intros [|c r] H N; [now elim N | exact H]. }
  induction s as [|c s IH]; intros cur pending Hc Hp.
  - simpl. destruct pending; constructor; [|constructor].
    apply W; [exact Hc | now apply Hp].
  - cbn [Lines.split_ws_from]. destruct (Text.isspace c) eqn:E.
    + destruct pending.
      * constructor; [apply W; [exact Hc | now apply Hp]|].
        apply IH; [reflexivity | discriminate].
      * apply IH; [reflexivity | discriminate].
    + apply IH.
      * rewrite no_space_app, Hc. simpl. unfold Text.nonspace. now rewrite E.
      * intros _. destruct cur; discriminate.
Qed.

Lemma split_ws_concat (words : list string) :
  Forall (fun t => Lines.is_word t = true) words ->
  Lines.split_ws (String.concat " " words) = words.
Proof.
  assert (N : forall t, Lines.is_word t = true ->
                        Lines.no_space t = true
                        /\ match t with EmptyString => false | _ => true end
                           = true).
  { intros [|c r] H; [discriminate H | split; [exact H | reflexivity]]. }
  unfold Lines.split_ws. induction 1 as [|t ts Ht Hts IH].
  - reflexivity.
  - destruct (N t Ht) as [Hs Hn]. destruct ts as [|t2 ts].
    + cbn [String.concat].
      replace (Lines.split_ws_from EmptyString false t)
        with (Lines.split_ws_from EmptyString false (t ++ EmptyString))
        by now rewrite string_app_nil_r.
      rewrite (split_ws_from_word t _ _ _ Hs). rewrite Hn. reflexivity.
    + change (String.concat " " (t :: t2 :: ts))
        with (t ++ " " ++ String.concat " " (t2 :: ts))%string.
      rewrite (split_ws_from_word t _ _ _ Hs). rewrite Hn.
      cbn [orb append]. cbn [Lines.split_ws_from].
      change (Text.isspace " ") with true. cbv iota.
      now rewrite IH.
Qed.

End WordFacts.

(** Every argument that [JLink.__init__] keeps for JLinkExe is a word:
    it is not empty and holds no white space, whatever [params] is.
    When [params] is made of words joined by single blanks, the
    arguments are [-NoGui], [1] and those words in their order. *)
Theorem jlink_args_are_words (params : option string) (words : list string) :
  Forall (fun t => Lines.is_word t = true) (Create.jlink_args params)
  /\ (Forall (fun t => Lines.is_word t = true) words ->
      Create.jlink_args (Some (String.concat " " words))
      = "-NoGui" :: "1" :: words).
Proof.
  split.
  - unfold Create.jlink_args. apply Forall_app. split.
    + repeat constructor.
    + destruct params as [text|]; [|constructor].
      apply split_ws_from_words; [reflexivity | discriminate].
  - intros H. unfold Create.jlink_args. now rewrite (split_ws_concat H).
Qed.

Lemma variant_cases (variant : string) (P : option (string * string) -> Prop) :
  (forall k v, In (k, v) Create.VARIANT_LOOKUP -> variant = k -> P (Some v)) ->
  (~ In variant Create.variants -> P None) ->
  P (Create.get Create.VARIANT_LOOKUP variant).
Proof.
  unfold Create.variants.
  generalize Create.VARIANT_LOOKUP as d.
  induction d as [|[k v] d IH]; intros Hin Hout.
  - apply Hout. intros [].
  - cbn [Create.get]. destruct (String.eqb_spec k variant) as [E|E].
    + apply (Hin k v); [now left | now symmetry].
    + apply IH.
      * intros k' v' I. apply Hin. now right.
      * intros Hn. apply Hout. intros [H|H]; [now apply E | now apply Hn].
Qed.

(** The table of variants is regular: for a variant of the table the
    J-Link device is [at] followed by the variant and the OpenOCD chip
    name is [at91] followed by the variant; for any other variant they
    are [ATSAMD21G18] and [at91samd21g18]. *)
Theorem samd21_variant_names (variant : string) :
  (In variant Create.variants ->
   Create.jlink_device variant = ("at" ++ variant)%string
   /\ Create.openocd_chipname variant = ("at91" ++ variant)%string)
  /\ (~ In variant Create.variants ->
      Create.jlink_device variant = "ATSAMD21G18"
      /\ Create.openocd_chipname variant = "at91samd21g18").
Proof.
  unfold Create.jlink_device, Create.openocd_chipname.
  apply (@variant_cases variant
           (fun r =>
              (In variant Create.variants ->
               match r with Some (d, _) => d | None => "ATSAMD21G18" end
               = ("at" ++ variant)%string
               /\ match r with Some (_, c) => c | None => "at91samd21g18" end
                  = ("at91" ++ variant)%string)
              /\ (~ In variant Create.variants ->
                  match r with Some (d, _) => d | None => "ATSAMD21G18" end
                  = "ATSAMD21G18"
                  /\ match r with Some (_, c) => c | None => "at91samd21g18" end
                     = "at91samd21g18"))).
  - intros k v Hin ->. split.
    + intros _. cbn [Create.VARIANT_LOOKUP In] in Hin.
      repeat (destruct Hin as [Hin|Hin];
              [injection Hin as <- <-; split; reflexivity|]).
      destruct Hin.
    + intros Hn. exfalso. apply Hn. unfold Create.variants.
      change k with (fst (k, v)). now apply in_map.
  - intros Hn. split; [intros H; now elim Hn | intros _; now split].
Qed.

(** For every variant, known or not, the arguments that the SAMD21 core
    gives JLinkExe are [-NoGui 1 -device <device> -if swd -speed 1000],
    eight arguments with the device of the variant as the fourth. *)
Theorem samd21_jlink_args (variant : string) :
  Create.jlink_args (Some (Create.jlink_params (Create.jlink_device variant)))
  = ["-NoGui"; "1"; "-device"; Create.jlink_device variant;
     "-if"; "swd"; "-speed"; "1000"].
Proof.
  assert (W : Lines.is_word (Create.jlink_device variant) = true).
  { unfold Create.jlink_device.
    apply (@variant_cases variant
             (fun r => Lines.is_word
                         match r with
                         | Some (d, _) => d
                         | None => "ATSAMD21G18"
                         end = true)).
    - intros k v Hin _. cbn [Create.VARIANT_LOOKUP In] in Hin.
      repeat (destruct Hin as [Hin|Hin];
              [injection Hin as <- <-; reflexivity|]).
      destruct Hin.
    - intros _. reflexivity. }
  change (Create.jlink_params (Create.jlink_device variant))
    with (String.concat " "
            ["-device"; Create.jlink_device variant;
             "-if"; "swd"; "-speed"; "1000"]).
  unfold Create.jlink_args. rewrite split_ws_concat; [reflexivity|].
  repeat constructor. exact W.
Qed.

Section ConstructFacts.

Variable host : JLinkHost.Host.
Variable openocd_init : Programmer -> string -> Result unit.






End ConstructFacts.


(** With the variant [samd21g18], or one that the table does not know,
    the OpenOCD programmers of the SAMD21 core are started with the very
    parameters that cores/atsamd21g18.py writes out in full. *)
Theorem samd21_default_openocd_params (variant : string) :
  variant = "samd21g18" \/ ~ In variant Create.variants ->
  Create.samd21_constructor_call variant "stlink"
  = Some (Create.NewOpenOCD PSTLink_SAMD21 Create.stlink_params_atsamd21g18)
  /\ Create.samd21_constructor_call variant "raspi2"
     = Some (Create.NewOpenOCD PRasPi2_SAMD21
               Create.raspi2_params_atsamd21g18).
Proof.
  intros H.
  assert (E : Create.openocd_chipname variant = "at91samd21g18").
  { destruct H as [->|H]; [reflexivity|].
    unfold Create.openocd_chipname.
    apply (@variant_cases variant
             (fun r => match r with
                       | Some (_, c) => c
                       | None => "at91samd21g18"
                       end = "at91samd21g18")).
    - intros k v Hin ->. exfalso. apply H. unfold Create.variants.
      change k with (fst (k, v)). now apply in_map.
    - reflexivity. }
  unfold Create.samd21_constructor_call. cbn [String.eqb Ascii.eqb Bool.eqb].
  rewrite E. split; reflexivity.
Qed.

Lemma samd21_default_openocd_params_witness :
  Create.samd21_constructor_call "samd21g18" "stlink"
  = Some (Create.NewOpenOCD PSTLink_SAMD21 Create.stlink_params_atsamd21g18)
  /\ Create.samd21_constructor_call "samd21g18" "raspi2"
     = Some (Create.NewOpenOCD PRasPi2_SAMD21
               Create.raspi2_params_atsamd21g18).
Proof.
  apply (@samd21_default_openocd_params "samd21g18"). left. reflexivity.
Defined.

(** ** What the J-Link operations make of a run of JLinkExe *)

Section JLinkOperations.

Variable tool : JLinkRun.Tool.

Lemma run_commands_cases (commands : Script) :
  JLinkRun.run_commands tool commands JLinkRun.default_timeout
  = if Proc.expires (tool (JLink.script_text commands))
         JLinkRun.default_timeout
    then Raise TimeoutExpired
    else Ok (Proc.stdout (tool (JLink.script_text commands))).
Proof.
  unfold JLinkRun.run_commands, JLinkRun.run_filename, Proc.communicate.
  destruct (Proc.expires (tool (JLink.script_text commands))
              JLinkRun.default_timeout); reflexivity.
Qed.

Lemma is_connected_parse_not_timeout (connected output : string) :
  JLinkRun.is_connected_parse connected output
  <> Raise (AdaLinkError JLinkRun.msg_timeout).
Proof.
  unfold JLinkRun.is_connected_parse.
  destruct (Text.contains "FAILED" output); [discriminate|].
  destruct (Parse.search_voltage output) as [ref|]; [|discriminate].
  destruct (Parse.float_lt_1 ref) as [[|]|]; discriminate.
Qed.

Lemma readmem_parse_not_timeout (address output : string) :
  JLinkRun.readmem_parse address output
  <> Raise (AdaLinkError JLinkRun.msg_timeout).
Proof.
  unfold JLinkRun.readmem_parse.
  destruct (Parse.search_register address output) as [g|]; [|discriminate].
  destruct (Parse.py_int16 g); discriminate.
Qed.

(** No operation of the J-Link programmer ever raises the error
    [JLink process exceeded timeout!]: a run of JLinkExe that exceeds
    the 60 seconds makes the connection check and the memory reads
    raise the timeout exception of the process itself. *)
Theorem jlink_operations_timeout (connected command : string) (address : Z)
  (abspath : string -> string) (hex_files : HexFiles) (bin_files : BinFiles) :
  let late commands :=
    Proc.expires (tool (JLink.script_text commands))
      JLinkRun.default_timeout in
  (late ["connect"; "q"] = true ->
   JLinkRun.is_connected tool connected = Raise TimeoutExpired)
  /\ (late [(command ++ " " ++ Fmt.format_08X address ++ " 1")%string; "q"]
      = true ->
      JLinkRun._readmem tool address command = Raise TimeoutExpired)
  /\ JLinkRun.is_connected tool connected
     <> Raise (AdaLinkError JLinkRun.msg_timeout)
  /\ JLinkRun._readmem tool address command
     <> Raise (AdaLinkError JLinkRun.msg_timeout)
  /\ JLinkRun.wipe tool <> Raise (AdaLinkError JLinkRun.msg_timeout)
  /\ JLinkRun.program tool abspath hex_files bin_files
     <> Raise (AdaLinkError JLinkRun.msg_timeout).
Proof.
  intros late. subst late. cbv beta.
  unfold JLinkRun.is_connected, JLinkRun._readmem, JLinkRun.wipe,
    JLinkRun.program.
  rewrite !run_commands_cases.
  split; [|split; [|split; [|split; [|split]]]].
  - intros H. now rewrite H.
  - intros H. now rewrite H.
  - destruct (Proc.expires _ _); [discriminate|].
    apply is_connected_parse_not_timeout.
  - destruct (Proc.expires _ _); [discriminate|].
    apply readmem_parse_not_timeout.
  - destruct (Proc.expires _ _); discriminate.
  - destruct (Proc.expires _ _); discriminate.
Qed.

End JLinkOperations.

(** ** The J-Link operations on a host *)

Section HostOperations.

Variable host : JLinkHost.Host.
Variable self : JLinkHost.JLink.

Lemma host_run_commands_cases (commands : Script) :
  JLinkHost.run_commands host self commands JLinkRun.default_timeout
  = match JLinkHost.write_script host (JLink.script_text commands) with
    | Raise e => Raise e
    | Ok name =>
        match JLinkHost.popen host
                ([JLinkHost._jlink_path self]
                 ++ JLinkHost._jlink_params self ++ [name]) with
        | Raise e => Raise e
        | Ok process =>
            if JLinkHost.expires process JLinkRun.default_timeout
            then Raise TimeoutExpired
            else JLinkHost.decode (JLinkHost.output process)
        end
    end.
Proof.
  unfold JLinkHost.run_commands, JLinkHost.run_filename,
    JLinkHost.communicate.
  destruct (JLinkHost.write_script host _) as [name|e]; [|reflexivity].
  cbn [bind]. rewrite <- app_assoc.
  destruct (JLinkHost.popen host _) as [process|e]; [|reflexivity].
  cbn [bind].
  destruct (JLinkHost.expires process JLinkRun.default_timeout); reflexivity.
Qed.

(** Whether a run of JLinkExe on the commands comes to its end: the
    script file is written, the program starts, exits within the 60
    seconds and what it wrote decodes, to whatever text. *)
Lemma host_run_commands_ok (commands : Script) :
  (exists text,
      JLinkHost.run_commands host self commands JLinkRun.default_timeout
      = Ok text)
  <-> exists name process text,
        JLinkHost.write_script host (JLink.script_text commands) = Ok name
        /\ JLinkHost.popen host
             ([JLinkHost._jlink_path self]
              ++ JLinkHost._jlink_params self ++ [name])
           = Ok process
        /\ JLinkHost.expires process JLinkRun.default_timeout = false
        /\ JLinkHost.output process = JLinkHost.Utf8 text.
Proof.
  rewrite host_run_commands_cases. split.
  - intros [text H].
    destruct (JLinkHost.write_script host _) as [name|e] eqn:W;
      [|discriminate H].
    destruct (JLinkHost.popen host _) as [process|e] eqn:P;
      [|discriminate H].
    destruct (JLinkHost.expires process _) eqn:X; [discriminate H|].
    destruct (JLinkHost.output process) as [t|] eqn:O; [|discriminate H].
    exists name, process, t. repeat split; assumption.
  - intros [name [process [text [-> [-> [-> ->]]]]]]. now exists text.
Qed.

(** [wipe] and [program] of the J-Link programmer never look at what
    JLinkExe wrote.  They return normally exactly when the script file
    can be written, JLinkExe starts, exits within the 60 seconds and
    its output decodes as UTF-8, whatever the text is, [FAILED] or
    nothing at all included.  When JLinkExe takes longer, the timeout
    exception of the process leaves them; when the output does not
    decode, the error of the decoding does. *)
Theorem jlink_wipe_program_ignore_output (abspath : string -> string)
  (hex_files : HexFiles) (bin_files : BinFiles) :
  let runs commands :=
    exists name process text,
      JLinkHost.write_script host (JLink.script_text commands) = Ok name
      /\ JLinkHost.popen host
           ([JLinkHost._jlink_path self]
            ++ JLinkHost._jlink_params self ++ [name])
         = Ok process
      /\ JLinkHost.expires process JLinkRun.default_timeout = false
      /\ JLinkHost.output process = JLinkHost.Utf8 text in
  (JLinkHost.wipe host self = Ok tt <-> runs JLink.wipe_commands)
  /\ (JLinkHost.program host self abspath hex_files bin_files = Ok tt
      <-> runs (JLink.program_commands abspath hex_files bin_files))
  /\ (forall name process,
        JLinkHost.write_script host (JLink.script_text JLink.wipe_commands)
        = Ok name ->
        JLinkHost.popen host
          ([JLinkHost._jlink_path self]
           ++ JLinkHost._jlink_params self ++ [name])
        = Ok process ->
        JLinkHost.wipe host self
        = if JLinkHost.expires process JLinkRun.default_timeout
          then Raise TimeoutExpired
          else match JLinkHost.output process with
               | JLinkHost.Utf8 _ => Ok tt
               | JLinkHost.NotUtf8 => Raise ValueError
               end).
Proof.
  intros runs.
  assert (R : forall commands,
             ((_ <- JLinkHost.run_commands host self commands
                      JLinkRun.default_timeout ;; Ok tt) = Ok tt
              <-> runs commands)).
  { intros commands. subst runs. cbv beta.
    rewrite <- host_run_commands_ok.
    destruct (JLinkHost.run_commands host self commands _) as [text|e];
      cbn [bind]; split.
    - intros _. now exists text.
    - reflexivity.
    - discriminate.
    - intros [text H]. discriminate H. }
  split; [apply R | split; [apply R|]].
  intros name process Hw Hp. unfold JLinkHost.wipe.
  rewrite host_run_commands_cases, Hw, Hp.
  destruct (JLinkHost.expires process _); [reflexivity|].
  destruct (JLinkHost.output process); reflexivity.
Qed.

End HostOperations.

(** On a host where script files can be written, the programs start and
    the children write text, the operations of the J-Link programmer
    are those of [JLinkRun] for the tool that such a host makes: what
    is proved of [JLinkRun] holds of the programmer on such a host. *)
Theorem jlink_host_refines (system : string) (name_of : string -> string)
  (child_of : list string -> Q * string) (self : JLinkHost.JLink)
  (abspath : string -> string) (hex_files : HexFiles) (bin_files : BinFiles)
  (commands : Script) (timeout_sec : option Q) :
  let host := JLinkHost.text_host system name_of child_of in
  let tool := JLinkHost.tool_of self name_of child_of in
  JLinkHost.run_commands host self commands timeout_sec
  = JLinkRun.run_commands tool commands timeout_sec
  /\ JLinkHost.wipe host self = JLinkRun.wipe tool
  /\ JLinkHost.program host self abspath hex_files bin_files
     = JLinkRun.program tool abspath hex_files bin_files.
Proof.
  intros host tool.
  assert (R : forall commands timeout_sec,
             JLinkHost.run_commands host self commands timeout_sec
             = JLinkRun.run_commands tool commands timeout_sec).
  { intros c t. subst host tool.
    unfold JLinkHost.run_commands, JLinkHost.run_filename,
      JLinkHost.communicate, JLinkHost.text_host, JLinkHost.tool_of,
      JLinkRun.run_commands, JLinkRun.run_filename, Proc.communicate,
      JLinkHost.expires, Proc.expires.
    cbn [JLinkHost.write_script JLinkHost.popen bind JLinkHost.run_time
         JLinkHost.output Proc.run_time Proc.stdout].
    rewrite <- app_assoc.
    destruct t as [t|]; [|reflexivity].
    destruct (Qle_bool _ t); reflexivity. }
  split; [apply R|].
  unfold JLinkHost.wipe, JLinkHost.program, JLinkRun.wipe, JLinkRun.program.
  now rewrite !R.
Qed.

(** ** A run of JLinkExe that exceeds the bound, seen from [main] *)

Section TimeoutEndToEnd.

Variable name : string.
Variable create_programmer : string -> Core.Op unit (Core.ProgrammerOps unit).
Variable info : Core.ProgrammerOps unit -> Core.Op unit unit.

(** When JLinkExe needs more than the 60 seconds for the connection
    check of a J-Link programmer, the check is the only call made and
    the timeout exception of the process leaves [_callback]; [main] does
    not catch it, prints nothing more and the exit status is 1. *)
Theorem jlink_timeout_leaves_main (args : Core.Args) (tool : JLinkRun.Tool)
  (connected : string) (abspath : string -> string)
  (help : string) (out : list string) :
  create_programmer (Core.arg_programmer args) tt
  = (Ok (JLinkObject.ops tool connected abspath), tt) ->
  Proc.expires (tool (JLink.script_text ["connect"; "q"]))
    JLinkRun.default_timeout = true ->
  let run := Core._callback name create_programmer info args (Calls.start tt) in
  fst run = Raise TimeoutExpired
  /\ Core.trace (snd run) = [Core.EvConnect]
  /\ Main.main help (Some (out, fst run))
     = {| Main.printed := out; Main.ending := Main.Propagates TimeoutExpired |}
  /\ Main.exit_status (Main.main help (Some (out, fst run))) = 1%Z.
Proof.
  intros Hcreate Hlate run.
  assert (E : run
              = (Raise TimeoutExpired,
                 {| Core.trace := [Core.EvConnect]; Core.world := tt |})).
  { subst run. unfold Core._callback.
    unfold Core.mbind at 1. unfold Core.lift, Calls.start.
    cbn [Core.world Core.trace]. rewrite Hcreate.
    unfold Core.mbind at 1. unfold Core.call.
    cbn [Core.world Core.trace app JLinkObject.ops Core.is_connected].
    unfold JLinkRun.is_connected, JLinkRun.run_commands,
      JLinkRun.run_filename, Proc.communicate.
    rewrite Hlate. reflexivity. }
  rewrite E. cbn [fst snd Core.trace]. repeat split.
Qed.

End TimeoutEndToEnd.

Lemma jlink_timeout_leaves_main_witness :
  let args :=
    {| Core.arg_programmer := "jlink"; Core.arg_wipe := true;
       Core.arg_info := false; Core.arg_program_hex := None;
       Core.arg_program_bin := None; Core.arg_read_mem_8 := None;
       Core.arg_read_mem_16 := None; Core.arg_read_mem_32 := None |} in
  let ops :=
    JLinkObject.ops (JLinkObject.slow (61 # 1)) "Cortex-M0 r0p1, Little endian"
      (fun f => f) in
  let run :=
    Core._callback "samd21" (fun _ w => (Ok ops, w)) (fun _ w => (Ok tt, w))
      args (Calls.start tt) in
  fst run = Raise TimeoutExpired
  /\ Core.trace (snd run) = [Core.EvConnect]
  /\ Main.main "usage" (Some ([], fst run))
     = {| Main.printed := []; Main.ending := Main.Propagates TimeoutExpired |}
  /\ Main.exit_status (Main.main "usage" (Some ([], fst run))) = 1%Z.
Proof.
  intros args ops.
  apply (@jlink_timeout_leaves_main "samd21" (fun _ w => (Ok ops, w))
           (fun _ w => (Ok tt, w)) args (JLinkObject.slow (61 # 1))
           "Cortex-M0 r0p1, Little endian" (fun f => f) "usage" []);
    reflexivity.
Defined.
